(** * Verification of the command layer of telegram-bot/index.js

    The development embeds, function by function, the parts of
    [telegram-bot/index.js] that carry the bot's invariants:

    - [parseGenInput], the tolerant parser of card specifications;
    - [isCommandAllowed] and the slash-command middleware (cooldown and
      in-flight deduplication);
    - [lookupBin], the two-provider BIN resolver, and its payload mapping;
    - the retry loop of the [cedula] command;
    - the batch of ten cards built by the [gen] command.

    JavaScript strings are sequences of UTF-16 code units; they are modelled
    as [list N], one number per code unit, so that [length] is the
    JavaScript [.length]. *)

From Stdlib Require Import ZArith NArith Ascii String List Lia Floats.
From stdpp Require Import base option list gmap strings pretty.

Local Open Scope N_scope.

(** ** JavaScript strings *)

Abbreviation jsstring := (list N).

(** The code units of an ASCII literal. *)
Fixpoint js (s : string) : jsstring :=
  match s with
  | EmptyString => []
  | String a s' => N_of_ascii a :: js s'
  end.

Module JsString.

(** The characters matched by [\s], which are also the ones removed by
    [String.prototype.trim] (WhiteSpace and LineTerminator). *)
Definition is_space (c : N) : bool :=
  ((9 <=? c) && (c <=? 13)) || (c =? 32) || (c =? 160) || (c =? 5760)
  || ((8192 <=? c) && (c <=? 8202)) || (c =? 8232) || (c =? 8233)
  || (c =? 8239) || (c =? 8287) || (c =? 12288) || (c =? 65279).

Fixpoint drop_while (p : N → bool) (s : jsstring) : jsstring :=
  match s with
  | [] => []
  | c :: s' => if p c then drop_while p s' else s
  end.

(** [s.trim()] *)
Definition trim (s : jsstring) : jsstring :=
  rev (drop_while is_space (rev (drop_while is_space s))).

(** [s.replace(/\|/g, ' ')] *)
Definition replace_pipes (s : jsstring) : jsstring :=
  map (λ c, if c =? 124 then 32 else c) s.

(** [s.replace(/\s+/g, ' ')]: every maximal run of white space becomes one
    space. [in_run] tells that the previous character was white space. *)
Fixpoint collapse_spaces (in_run : bool) (s : jsstring) : jsstring :=
  match s with
  | [] => []
  | c :: s' =>
      if is_space c
      then (if in_run then collapse_spaces true s'
            else 32 :: collapse_spaces true s')
      else c :: collapse_spaces false s'
  end.

(** [s.split(sep)] for a one-character separator: n separators give
    n+1 pieces, and the empty string gives one empty piece. *)
Fixpoint split (sep : N) (s : jsstring) : list jsstring :=
  match s with
  | [] => [[]]
  | c :: s' =>
      if c =? sep then [] :: split sep s'
      else match split sep s' with
           | [] => [[c]]
           | piece :: pieces => (c :: piece) :: pieces
           end
  end.

(** [/x/i]: the letter x in either case. *)
Definition is_x (c : N) : bool := (c =? 120) || (c =? 88).

(** [s.replace(/x+$/i, '')]: the leftmost match of [x+$] starts where the
    final run of x's starts, so the replacement removes that run. *)
Definition strip_trailing_x (s : jsstring) : jsstring :=
  rev (drop_while is_x (rev s)).

Definition is_digit (c : N) : bool := (48 <=? c) && (c <=? 57).
Definition in_range (lo hi c : N) : bool := (lo <=? c) && (c <=? hi).

(** [s.slice(-2)] *)
Definition slice_last2 (s : jsstring) : jsstring :=
  drop (length s - 2)%nat s.

(** [s.startsWith(p)] *)
Fixpoint startsWith (p s : jsstring) : bool :=
  match p, s with
  | [], _ => true
  | _ :: _, [] => false
  | a :: p', b :: s' => (a =? b) && startsWith p' s'
  end.

End JsString.

(** ** The input normalizer: [parseGenInput] *)

Module Parser.
Import JsString.

(** A destructured or optional field: [None] is [undefined]. *)
Abbreviation field := (option jsstring).

(** JavaScript truthiness of a value that is a string or [undefined]. *)
Definition truthy (v : field) : bool :=
  match v with
  | Some (_ :: _) => true
  | _ => false
  end.

Definition str (v : field) : jsstring := default [] v.

(** [/\//.test(s)] *)
Definition has_slash (s : jsstring) : bool := existsb (λ c, c =? 47) s.

(** [/x/i.test(s)] *)
Definition has_x (s : jsstring) : bool := existsb is_x s.

(** [/^20[2-3][0-9]$/.test(s)] *)
Definition is_year_20xx (s : jsstring) : bool :=
  match s with
  | [a; b; c; d] => (a =? 50) && (b =? 48) && in_range 50 51 c && is_digit d
  | _ => false
  end.

(** [/^0[1-9]|1[0-2]$/.test(s)]. The alternation binds weaker than the
    anchors: the pattern is [^0[1-9]] or [1[0-2]$]. *)
Definition looks_like_month (s : jsstring) : bool :=
  match s with
  | a :: b :: _ => (a =? 48) && in_range 49 57 b
  | _ => false
  end
  ||
  match rev s with
  | b :: a :: _ => (a =? 49) && in_range 48 50 b
  | _ => false
  end.

Record GenInput := {
  bin : field;
  month : field;
  year : field;
  cvv : field
}.

(** The pieces of the normalised input: [input.trim()], pipes to spaces,
    runs of white space collapsed, split on the space. *)
Definition tokens (input : jsstring) : list jsstring :=
  let input := trim input in
  let input := collapse_spaces false (replace_pipes input) in
  split 32 input.

Definition parseGenInput (input : jsstring) : GenInput :=
  let parts := tokens input in
  (* let [bin, month, year, cvv] = input.split(' ') *)
  let bin := parts !! 0%nat in
  let month := parts !! 1%nat in
  let year := parts !! 2%nat in
  let cvv := parts !! 3%nat in
  (* if (bin) bin = bin.replace(/x+$/i, '') *)
  let bin := if truthy bin then Some (strip_trailing_x (str bin)) else bin in
  (* if (month && /\//.test(month)) { [m, y] = month.split('/'); ... } *)
  let '(month, year) :=
    if truthy month && has_slash (str month) then
      let pieces := split 47 (str month) in
      let m := pieces !! 0%nat in
      let y := pieces !! 1%nat in
      (m, if truthy y && (length (str y) =? 2)%nat
          then Some (js "20" ++ str y) else y)
    else (month, year) in
  (* if (year && year.length === 2) year = '20' + year *)
  let year :=
    if truthy year && (length (str year) =? 2)%nat
    then Some (js "20" ++ str year) else year in
  (* the month/year swap *)
  let '(month, year) :=
    if truthy year && truthy month && (length (str month) =? 4)%nat
       && is_year_20xx (str month) && looks_like_month (str year)
    then (year, month) else (month, year) in
  (* if (cvv && /x/i.test(cvv)) cvv = undefined *)
  let cvv := if truthy cvv && has_x (str cvv) then None else cvv in
  {| bin := bin; month := month; year := year; cvv := cvv |}.

(** The vocabulary of the statements about the parser. *)

(** A character that separates tokens: white space or the pipe. *)
Definition separator (c : N) : bool := is_space c || (c =? 124).

(** A token as a user types it: not empty, and free of separators. *)
Definition clean (t : jsstring) : bool :=
  match t with
  | [] => false
  | _ :: _ => forallb (λ c, negb (separator c)) t
  end.

(** [ts.join(' ')] *)
Fixpoint join (ts : list jsstring) : jsstring :=
  match ts with
  | [] => []
  | [t] => t
  | t :: ts' => t ++ 32 :: join ts'
  end.

(** Letters, in the sense of [[A-Za-z]]. *)
Definition is_letter (c : N) : bool :=
  in_range 97 122 c || in_range 65 90 c.

End Parser.

(** ** The cooldown and deduplication guard *)

Module Guard.
Import JsString.

Local Open Scope Z_scope.

(** What the handlers and the middleware do to the outside world, in
    order. *)
Inductive Event :=
  | ConsoleLog (line : string)
  | Reply (text : string)
  | CallNext
  | SetTimeout (ms : Z) (key : string).

(** The module-level state: the clock read by [Date.now()], the
    [userStates] map, the [processingCommands] set, and the effects
    performed so far. *)
Record World := {
  clock : Z;
  userStates : gmap Z Z;
  processingCommands : gset string;
  trace : list Event
}.

Definition COOLDOWN_PERIOD : Z := 2000.

Definition emit (e : Event) (w : World) : World :=
  {| clock := clock w; userStates := userStates w;
     processingCommands := processingCommands w;
     trace := trace w ++ [e] |}.

Definition set_userStates (us : gmap Z Z) (w : World) : World :=
  {| clock := clock w; userStates := us;
     processingCommands := processingCommands w; trace := trace w |}.

Definition set_processingCommands (pc : gset string) (w : World) : World :=
  {| clock := clock w; userStates := userStates w;
     processingCommands := pc; trace := trace w |}.

(** [!lastCommandTime]: true for [undefined] and for the number 0. *)
Definition not_lastCommandTime (t : option Z) : bool :=
  match t with
  | None => true
  | Some t => t =? 0
  end.

Definition isCommandAllowed (userId : Z) (w : World) : bool * World :=
  let now := clock w in
  let lastCommandTime := userStates w !! userId in
  if not_lastCommandTime lastCommandTime
     || (COOLDOWN_PERIOD <=? now - default 0 lastCommandTime)
  then (true, set_userStates (<[userId := now]> (userStates w)) w)
  else (false, w).

(** The update as Telegraf hands it to the middleware. *)
Record Message := {
  text : option jsstring;
  message_id : Z
}.

Record Ctx := {
  message : option Message;
  from_id : option Z
}.

Inductive Outcome := Returned | Threw.

(** The rest of the middleware chain: it may do anything to the world
    and may throw. *)
Abbreviation Next := (World → World * Outcome).

Definition commandKey (userId messageId : Z) : string :=
  pretty userId +:+ "_" +:+ pretty messageId +:+ "_slash".

Definition please_wait : string :=
  "⚠️ Por favor, aguarde alguns segundos antes de usar outro comando.".

Definition call (next : Next) (w : World) : World * Outcome :=
  next (emit CallNext w).

(** [ctx.message && ctx.message.text && ctx.message.text.startsWith('/')] *)
Definition is_slash_command (ctx : Ctx) : bool :=
  match message ctx with
  | Some m =>
      match text m with
      | Some (c :: t) => startsWith (js "/") (c :: t)
      | _ => false
      end
  | None => false
  end.

Definition middleware (next : Next) (ctx : Ctx) (w : World)
  : World * Outcome :=
  if is_slash_command ctx then
    match from_id ctx with
    | None => (w, Threw)     (* ctx.from.id on an update without sender *)
    | Some userId =>
        let messageId := from_option message_id 0 (message ctx) in
        let key := commandKey userId messageId in
        if decide (key ∈ processingCommands w) then
          (emit (ConsoleLog ("Comando com / duplicado ignorado: " +:+ key)) w,
           Returned)
        else
          let '(allowed, w) := isCommandAllowed userId w in
          if negb allowed then
            let w :=
              emit (ConsoleLog ("Comando com / ignorado por cooldown: " +:+ key)) w in
            (emit (Reply please_wait) w, Returned)
          else
            let w := set_processingCommands ({[key]} ∪ processingCommands w) w in
            let '(w, outcome) := call next w in
            (* finally *)
            (emit (SetTimeout 60000 key) w, outcome)
    end
  else call next w.

(** The callback armed by [setTimeout]. *)
Definition timer_fires (key : string) (w : World) : World :=
  set_processingCommands (processingCommands w ∖ {[key]}) w.

(** The replies among a list of events. *)
Definition replies (t : list Event) : list string :=
  omap (λ e, match e with Reply s => Some s | _ => None end) t.

Definition handler_calls (t : list Event) : nat :=
  length (omap (λ e, match e with CallNext => Some e | _ => None end) t).

(** Recorded timestamps are readings of [Date.now()], which are never 0
    (a stored 0 would be read as "no timestamp" by [!lastCommandTime]). *)
Definition stamps_nonzero (us : gmap Z Z) : Prop :=
  ∀ userId t, us !! userId = Some t → t ≠ 0.

(** The user may issue a command now: no timestamp is recorded, or the
    cooldown has elapsed since the recorded one. *)
Definition cooled_down (userId : Z) (w : World) : Prop :=
  match userStates w !! userId with
  | None => True
  | Some last => COOLDOWN_PERIOD ≤ clock w - last
  end.

(** Sample worlds and updates. *)
Definition world0 : World :=
  {| clock := 1700000005000;
     userStates := {[ 42 := 1700000000000 ]};
     processingCommands := ∅;
     trace := [] |}.

Definition slash_gen : Ctx :=
  {| message := Some {| text := Some (js "/gen 477349"); message_id := 7 |};
     from_id := Some 42 |}.

Definition world_in_flight : World :=
  {| clock := 1700000000500;
     userStates := {[ 42 := 1700000000000 ]};
     processingCommands := {[ commandKey 42 7 ]};
     trace := [] |}.

Definition world_cooling : World :=
  {| clock := 1700000000500;
     userStates := {[ 42 := 1700000000000 ]};
     processingCommands := ∅;
     trace := [] |}.

Definition next_ok : Next := λ w, (emit (Reply "ok") w, Returned).

End Guard.

(** ** Values produced by [JSON.parse], and errors *)

Module Js.

(** The exceptions the modelled code can meet. *)
Inductive Error :=
  | TypeError          (* property read on undefined or null *)
  | SyntaxError        (* response.json() on a body that is not JSON *)
  | AbortError         (* the AbortController fired *)
  | FetchError         (* fetch rejected: DNS, connection, ... *)
  | PlainError (message : string).   (* throw new Error(message) *)

Inductive result (A : Type) :=
  | Ok (a : A)
  | Throw (e : Error).
Arguments Ok {A} a.
Arguments Throw {A} e.

#[global] Instance result_ret : MRet result := λ A a, Ok a.
#[global] Instance result_bind : MBind result := λ A B f m,
  match m with
  | Ok a => f a
  | Throw e => Throw e
  end.

(** A JavaScript value as [JSON.parse] builds it, plus [undefined]. An
    object is the list of its own properties. *)
#[warnings="-register-all"]
Inductive value :=
  | VUndefined
  | VNull
  | VBool (b : bool)
  | VNumber (x : float)
  | VString (s : jsstring)
  | VArray (items : list value)
  | VObject (props : list (jsstring * value)).

Definition truthy (v : value) : bool :=
  match v with
  | VUndefined | VNull => false
  | VBool b => b
  | VNumber x => negb (PrimFloat.is_zero x || PrimFloat.is_nan x)
  | VString s => match s with [] => false | _ :: _ => true end
  | VArray _ | VObject _ => true
  end.

(** The own property [k] of an object, [undefined] when there is none. *)
Fixpoint own (props : list (jsstring * value)) (k : jsstring) : value :=
  match props with
  | [] => VUndefined
  | (k', v) :: rest => if decide (k' = k) then v else own rest k
  end.

(** [v.k] for a property name [k] that no prototype defines (none of the
    names read below is a member of Object, String, Number, Boolean or
    Array prototypes). *)
Definition get (v : value) (k : jsstring) : result value :=
  match v with
  | VUndefined | VNull => Throw TypeError
  | VObject props => Ok (own props k)
  | VBool _ | VNumber _ | VString _ | VArray _ => Ok VUndefined
  end.

(** [v?.k] *)
Definition get_opt (v : value) (k : jsstring) : result value :=
  match v with
  | VUndefined | VNull => Ok VUndefined
  | _ => get v k
  end.

(** [a || b] *)
Definition or (a b : value) : value := if truthy a then a else b.

(** A [fetch] response: its status and what [response.json()] gives. *)
Record Response := {
  status : Z;
  json : result value
}.

(** [response.ok] *)
Definition ok (r : Response) : bool :=
  ((200 <=? status r) && (status r <=? 299))%Z.

End Js.

(** ** The BIN resolver: [lookupBin] *)

Module Resolver.
Import Js.

Record LookupResult := {
  bank : value;
  brand : value;
  type : value;
  country : value;
  countryCode : value;
  level : value
}.

Definition lit (s : string) : value := VString (js s).

(** The object literal returned for a binlist.net payload. *)
Definition fromBinlist (data1 : value) : result LookupResult :=
  b ← get data1 (js "bank");
  bank_name ← get_opt b (js "name");
  scheme ← get data1 (js "scheme");
  ty ← get data1 (js "type");
  c ← get data1 (js "country");
  country_name ← get_opt c (js "name");
  c' ← get data1 (js "country");
  alpha2 ← get_opt c' (js "alpha2");
  brand' ← get data1 (js "brand");
  mret {| bank := or bank_name (lit "Desconhecido");
          brand := or scheme (lit "Desconhecida");
          type := or ty (lit "Desconhecido");
          country := or country_name (lit "Desconhecido");
          countryCode := or alpha2 (lit "??");
          level := or brand' (lit "Desconhecido") |}.

(** The object literal returned for a bintable.com payload. *)
Definition fromBintable (data2 : value) : result LookupResult :=
  b ← get data2 (js "bank");
  bank_name ← get_opt b (js "name");
  scheme ← get data2 (js "scheme");
  brand' ← (if truthy scheme then mret scheme else get data2 (js "brand"));
  ty ← get data2 (js "type");
  c ← get data2 (js "country");
  country_name ← get_opt c (js "name");
  c' ← get data2 (js "country");
  code ← get_opt c' (js "code");
  level' ← get data2 (js "level");
  mret {| bank := or bank_name (lit "Desconhecido");
          brand := or brand' (lit "Desconhecida");
          type := or ty (lit "Desconhecido");
          country := or country_name (lit "Desconhecido");
          countryCode := or code (lit "??");
          level := or level' (lit "Desconhecido") |}.

Inductive Provider := Binlist | Bintable.

(** What [fetch] does for each provider when asked about a BIN: it
    resolves to a response or rejects. *)
Abbreviation Network := (Provider → jsstring → result Response).

(** The body of the [try] block, with the providers it has called. *)
Definition lookupBin_try (net : Network) (bin : jsstring)
  : list Provider * result LookupResult :=
  match net Binlist bin with
  | Throw e => ([Binlist], Throw e)
  | Ok response1 =>
      if ok response1 then
        ([Binlist], json response1 ≫= fromBinlist)
      else
        match net Bintable bin with
        | Throw e => ([Binlist; Bintable], Throw e)
        | Ok response2 =>
            if ok response2 then
              ([Binlist; Bintable], json response2 ≫= fromBintable)
            else
              ([Binlist; Bintable],
               Throw (PlainError "Não foi possível obter informações do BIN"))
        end
  end.

(** [lookupBin]: the providers called, in order, and the value returned;
    [None] is [null]. *)
Definition lookupBin (net : Network) (bin : jsstring)
  : list Provider * option LookupResult :=
  let '(called, r) := lookupBin_try net bin in
  (called, match r with Ok info => Some info | Throw _ => None end).

(** The vocabulary of the statements about the resolver. *)

(** The provider's value at the path [a.b] of a payload with properties
    [props]: [undefined] when [a] is absent or has no property [b]. *)
Definition nested (props : list (jsstring * value)) (a b : jsstring) : value :=
  match own props a with
  | VObject inner => own inner b
  | _ => VUndefined
  end.

(** [actual] is the provider's value when that is truthy, and the fallback
    literal otherwise. *)
Definition value_or (provided : value) (fallback : string) (actual : value)
  : Prop :=
  (truthy provided = true ∧ actual = provided)
  ∨ (truthy provided = false ∧ actual = lit fallback).

(** The provider answered with a success status and a body that parses
    to [d]. *)
Definition answered (net : Network) (p : Provider) (bin : jsstring)
    (d : value) : Prop :=
  ∃ r, net p bin = Ok r ∧ ok r = true ∧ json r = Ok d.

(** The provider answered with a non-success status. *)
Definition refused (net : Network) (p : Provider) (bin : jsstring) : Prop :=
  ∃ r, net p bin = Ok r ∧ ok r = false.

(** A hard error: the request itself failed, or the body of a successful
    response is not JSON. *)
Definition failed_hard (net : Network) (p : Provider) (bin : jsstring)
  : Prop :=
  (∃ e, net p bin = Throw e)
  ∨ (∃ r e, net p bin = Ok r ∧ ok r = true ∧ json r = Throw e).

(** [null] for a thrown error. *)
Definition to_option {A} (r : result A) : option A :=
  match r with Ok a => Some a | Throw _ => None end.

(** Sample payloads and networks. *)
Definition payload_bintable : value :=
  VObject [(js "bank", VObject [(js "name", lit "Banco Pichincha")]);
           (js "scheme", lit "visa");
           (js "country", VObject [(js "code", lit "EC")])].

(** The primary provider is unreachable; the secondary would answer. *)
Definition net_primary_down : Network := λ p _,
  match p with
  | Binlist => Throw FetchError
  | Bintable => Ok {| status := 200; json := Ok payload_bintable |}
  end.

(** The primary provider answers 500; the secondary answers. *)
Definition net_primary_500 : Network := λ p _,
  match p with
  | Binlist => Ok {| status := 500; json := Throw SyntaxError |}
  | Bintable => Ok {| status := 200; json := Ok payload_bintable |}
  end.

End Resolver.

(** ** The retry loop of the [cedula] command *)

Module Cedula.
Import Js.

Local Open Scope Z_scope.

Inductive Event :=
  | Fetch (attempt : Z)
  | Sleep (ms : Z).

(** What the [attempt]-th call of [fetchWithTimeout] does. *)
Abbreviation Network := (Z → result Response).

(** The [for] loop. [remaining] counts the iterations left before
    [attempt <= 2] fails; the result is the final [resp] (or the rethrown
    error) and the effects performed. *)
Fixpoint retry_loop (remaining : nat) (attempt : Z) (net : Network)
    (resp : option Response) (tr : list Event)
  : result (option Response) * list Event :=
  match remaining with
  | O => (Ok resp, tr)
  | S remaining' =>
      let tr := tr ++ [Fetch attempt] in
      match net attempt with
      | Ok r =>
          (* if (resp.status === 429) { if (attempt === 1) wait; else break; } *)
          let '(tr, broke) :=
            if status r =? 429 then
              if attempt =? 1 then (tr ++ [Sleep 1200], false) else (tr, true)
            else (tr, false) in
          if broke : bool then (Ok (Some r), tr) else
          (* if (resp.status >= 500 && resp.status < 600) { ... } *)
          let '(tr, broke) :=
            if (500 <=? status r) && (status r <? 600) then
              if attempt =? 1 then (tr ++ [Sleep 800], false) else (tr, true)
            else (tr, false) in
          if broke : bool then (Ok (Some r), tr) else
          (* break *)
          (Ok (Some r), tr)
      | Throw err =>
          if attempt =? 2 then (Throw err, tr)
          else retry_loop remaining' (attempt + 1) net resp (tr ++ [Sleep 700])
      end
  end.

(** What the user is told, up to the point where the body is read. *)
Inductive Answer :=
  | NotFound           (* 404: no information for this cedula *)
  | Overloaded         (* 429: service temporarily overloaded *)
  | GenericError       (* error while consulting the cedula *)
  | TimedOut           (* AbortError: time limit reached *)
  | ReadBody (resp : Response).   (* status below 400: go on to resp.json() *)

Definition on_error (e : Error) : Answer :=
  match e with
  | AbortError => TimedOut
  | _ => GenericError
  end.

Definition cedula_lookup (net : Network) : Answer * list Event :=
  match retry_loop 2 1 net None [] with
  | (Throw e, tr) => (on_error e, tr)
  | (Ok None, tr) => (on_error (PlainError "No response from SRI"), tr)
  | (Ok (Some resp), tr) =>
      if status resp =? 404 then (NotFound, tr)
      else if status resp =? 429 then (Overloaded, tr)
      else if 400 <=? status resp then (GenericError, tr)
      else (ReadBody resp, tr)
  end.

Definition fetches (tr : list Event) : nat :=
  length (omap (λ e, match e with Fetch a => Some a | Sleep _ => None end) tr).

(** A registry that answers 429 to the first request and 200 to the
    second. *)
Definition net_429_then_200 : Network := λ attempt,
  if attempt =? 1 then Ok {| status := 429; json := Throw SyntaxError |}
  else Ok {| status := 200; json := Ok (VObject []) |}.

End Cedula.

(** ** The card generator and the batch of the [gen] command *)

Module Generator.
Import JsString.

Local Open Scope nat_scope.

(** Modelled from the spec: [isValidBin] of [utils.js], which is not part
    of the sources at hand. Section 4.3: digits only, length between 6 and
    16 inclusive. *)
Definition isValidBin (bin : jsstring) : bool :=
  forallb is_digit bin && (6 <=? length bin) && (length bin <=? 16).

(** The value of a digit character, and the character of a digit. *)
Definition digit_value (c : N) : nat := N.to_nat (c - 48).
Definition digit_char (d : nat) : N := (48 + N.of_nat d)%N.

(** Modelled from the spec: the Luhn checksum of section 4.3. Positions are
    counted from the right, starting at one: digits at odd positions count
    as they are, digits at even positions are doubled and digit-summed when
    the double exceeds 9. The list is the number read from the right. *)
Definition luhn_double (d : nat) : nat :=
  let x := 2 * d in
  if 9 <? x then x / 10 + x mod 10 else x.

Fixpoint luhn_sum (odd_position : bool) (from_right : list nat) : nat :=
  match from_right with
  | [] => 0
  | d :: rest =>
      (if odd_position then d else luhn_double d)
      + luhn_sum (negb odd_position) rest
  end.



(** The source of randomness: the successive results of the generator's
    random choices are read off a sequence of draws, and every computation
    that draws hands the rest of the sequence on. *)
Abbreviation Rng := (nat → nat).
Abbreviation Rand A := (Rng → A * Rng).

Definition advance (g : Rng) : Rng := λ i, g (S i).

Definition rand_ret {A} (a : A) : Rand A := λ g, (a, g).
Definition rand_bind {A B} (m : Rand A) (f : A → Rand B) : Rand B :=
  λ g, let '(a, g') := m g in f a g'.

Notation "'draw' x 'from' m 'in' k" := (rand_bind m (λ x, k))
  (at level 10, x name, m at level 100, k at level 200).

(** Modelled from the spec: a randomly chosen digit. *)
Definition random_digit : Rand N :=
  λ g, (digit_char (g 0 mod 10), advance g).

(** Modelled from the spec: [s] extended with [n] randomly chosen digits. *)
Fixpoint pad (n : nat) (s : jsstring) : Rand jsstring :=
  match n with
  | O => rand_ret s
  | S n' => draw d from random_digit in pad n' (s ++ [d])
  end.

(** Modelled from the spec: the fixed total length (reference: 16). *)
Definition CARD_LENGTH : nat := 16.

(** Modelled from the spec: the final digit, recomputed from the digits
    before it so that the whole sequence passes the checksum. *)
Definition check_digit (body : jsstring) : N :=
  let s := luhn_sum false (rev (map digit_value body)) in
  digit_char ((10 - s mod 10) mod 10).

Record Card := {
  number : jsstring;
  month : jsstring;
  year : jsstring;
  cvv : jsstring
}.

(** Modelled from the spec: the number construction of [generateCard] in
    [utils.js] (section 4.3): the bin is extended with random digits up to
    the fixed total length, then the final digit is recomputed so that the
    whole sequence passes the checksum. *)
Definition generate_number (bin : jsstring) : Rand jsstring :=
  draw padded from pad (CARD_LENGTH - length bin) bin in
  let body := removelast padded in
  rand_ret (body ++ [check_digit body]).

Section Batch.

(** The spec leaves the ranges of the random expiry and cvv open; they are
    parameters here. *)
Variable random_month : Rand jsstring.
Variable random_year : Rand jsstring.
Variable random_cvv : Rand jsstring.

(** Modelled from the spec: [generateCard] of [utils.js], which returns a
    number, an expiry month and year, and a cvv. *)
Definition generateCard (bin : jsstring) : Rand Card :=
  draw n from generate_number bin in
  draw m from random_month in
  draw y from random_year in
  draw c from random_cvv in
  rand_ret {| number := n; month := m; year := y; cvv := c |}.

(** The callback of [Array(10).fill().map(...)] in the [gen] handler:
    a fresh card, then the overrides. *)
Definition overridden (fixedMonth fixedYear fixedCVV : Parser.field)
    (card : Card) : Card :=
  let card :=
    if Parser.truthy fixedMonth
    then {| number := number card; month := Parser.str fixedMonth;
            year := year card; cvv := cvv card |}
    else card in
  let card :=
    if Parser.truthy fixedYear
    then {| number := number card; month := month card;
            year := (match slice_last2 (Parser.str fixedYear) with
                     | [] => year card
                     | c :: s => c :: s
                     end);
            cvv := cvv card |}
    else card in
  if Parser.truthy fixedCVV
  then {| number := number card; month := month card;
          year := year card; cvv := Parser.str fixedCVV |}
  else card.

Fixpoint repeat_rand {A} (n : nat) (m : Rand A) : Rand (list A) :=
  match n with
  | O => rand_ret []
  | S n' => draw a from m in draw rest from repeat_rand n' m in rand_ret (a :: rest)
  end.

(** [const cards = Array(10).fill().map(() => { ... })] *)
Definition genCards (bin : jsstring)
    (fixedMonth fixedYear fixedCVV : Parser.field) : Rand (list Card) :=
  repeat_rand 10
    (draw card from generateCard bin in
     rand_ret (overridden fixedMonth fixedYear fixedCVV card)).

(** [/^(0[1-9]|1[0-2])$/.test(s)] *)
Definition valid_month (s : jsstring) : bool :=
  match s with
  | [a; b] => ((a =? 48)%N && in_range 49 57 b)
              || ((a =? 49)%N && in_range 48 50 b)
  | _ => false
  end.

(** [/^([0-9]{2}|20[2-3][0-9])$/.test(s)] *)
Definition valid_year (s : jsstring) : bool :=
  match s with
  | [a; b] => is_digit a && is_digit b
  | _ => Parser.is_year_20xx s
  end.

(** [/^[0-9]{3,4}$/.test(s)] *)
Definition valid_cvv (s : jsstring) : bool :=
  forallb is_digit s && (3 <=? length s) && (length s <=? 4).

(** The replies of the [gen] handler that end it before any card is
    made. *)
Inductive Rejection :=
  | Usage
  | InvalidBin
  | InvalidMonth
  | InvalidYear
  | InvalidCvv.

(** The [gen] handler from the extracted arguments up to the batch of
    cards: the usage notice for an empty input, then the parser, the four
    validations, and the ten cards. *)
Definition gen_command (input : jsstring) : Rand (Rejection + list Card) :=
  match input with
  | [] => rand_ret (inl Usage)
  | _ :: _ =>
      let parsed := Parser.parseGenInput input in
      let bin := Parser.bin parsed in
      let fixedMonth := Parser.month parsed in
      let fixedYear := Parser.year parsed in
      let fixedCVV := Parser.cvv parsed in
      if negb (from_option isValidBin false bin) then rand_ret (inl InvalidBin)
      else if Parser.truthy fixedMonth && negb (valid_month (Parser.str fixedMonth))
      then rand_ret (inl InvalidMonth)
      else if Parser.truthy fixedYear && negb (valid_year (Parser.str fixedYear))
      then rand_ret (inl InvalidYear)
      else if Parser.truthy fixedCVV && negb (valid_cvv (Parser.str fixedCVV))
      then rand_ret (inl InvalidCvv)
      else
        draw cards from genCards (Parser.str bin) fixedMonth fixedYear fixedCVV in
        rand_ret (inr cards)
  end.

End Batch.

(** Sample generators for the fields the spec leaves open, a sample
    sequence of draws, and sample bins. *)
Definition two_digits (n : nat) : jsstring :=
  [digit_char (n / 10); digit_char (n mod 10)].

Definition sample_month : Rand jsstring :=
  λ g, (two_digits (g 0 mod 12 + 1), advance g).

Definition sample_year : Rand jsstring :=
  λ g, (two_digits (26 + g 0 mod 5), advance g).

Definition sample_cvv : Rand jsstring :=
  draw a from random_digit in
  draw b from random_digit in
  draw c from random_digit in
  rand_ret [a; b; c].

Definition sample_draws : Rng := λ i, i * i + 3 * i + 7.

Definition bin6 : jsstring := js "477349".

End Generator.

(** ** The gen handler over the two functions of [utils.js] *)

Module GenCommand.
Import JsString Generator.



Section Handler.

(** [isValidBin] and [generateCard] are imported from [utils.js]: the
    handler is written here for any two such functions. *)
Variable isValidBin : jsstring → bool.
Variable generateCard : jsstring → Rand Card.

(** One card of the batch: the callback of [Array(10).fill().map]. *)
Definition gen_card (bin : jsstring)
    (fixedMonth fixedYear fixedCVV : Parser.field) : Rand Card :=
  draw card from generateCard bin in
  rand_ret (overridden fixedMonth fixedYear fixedCVV card).

(** The [gen] handler from the extracted arguments up to the batch of
    cards: the usage notice for an empty input, then the parser, the four
    validations, each of which ends the handler with its notice, and the
    ten cards. *)
Definition gen_handler (input : jsstring) : Rand (Rejection + list Card) :=
  match input with
  | [] => rand_ret (inl Usage)
  | _ :: _ =>
      let parsed := Parser.parseGenInput input in
      let bin := Parser.bin parsed in
      let fixedMonth := Parser.month parsed in
      let fixedYear := Parser.year parsed in
      let fixedCVV := Parser.cvv parsed in
      if negb (from_option isValidBin false bin) then rand_ret (inl InvalidBin)
      else if Parser.truthy fixedMonth && negb (valid_month (Parser.str fixedMonth))
      then rand_ret (inl InvalidMonth)
      else if Parser.truthy fixedYear && negb (valid_year (Parser.str fixedYear))
      then rand_ret (inl InvalidYear)
      else if Parser.truthy fixedCVV && negb (valid_cvv (Parser.str fixedCVV))
      then rand_ret (inl InvalidCvv)
      else
        draw cards from
          repeat_rand 10 (gen_card (Parser.str bin) fixedMonth fixedYear fixedCVV) in
        rand_ret (inr cards)
  end.

End Handler.

End GenCommand.

(** ** Command arguments: [getCommandArgs] and the dot pattern *)

Module Args.
Import JsString.

Fixpoint take_while (p : N → bool) (s : jsstring) : jsstring :=
  match s with
  | [] => []
  | c :: s' => if p c then c :: take_while p s' else []
  end.

(** [\w]: the ASCII letters, the digits and the underscore. *)
Definition is_word (c : N) : bool :=
  in_range 97 122 c || in_range 65 90 c || is_digit c || (c =? 95).

(** The characters the dot of a pattern does not match. *)
Definition is_line_terminator (c : N) : bool :=
  (c =? 10) || (c =? 13) || (c =? 8232) || (c =? 8233).

(** [text.match] with the pattern of the dot commands (a dot at the start,
    group 1 of one or more word characters, any white space, group 2 of
    any characters but line terminators): the groups 1 and 2 of the match,
    or [None] for [null]. Every quantifier is greedy and what follows it can
    match the empty string, so the first try of the matcher succeeds: the
    longest run of word characters, then the longest run of white space,
    then everything up to the first line terminator. *)
Definition dot_match (text : jsstring) : option (jsstring * jsstring) :=
  match text with
  | 46 :: rest =>
      match take_while is_word rest with
      | [] => None
      | command =>
          let after := drop_while is_space (drop_while is_word rest) in
          Some (command, take_while (λ c, negb (is_line_terminator c)) after)
      end
  | _ => None
  end.

(** [getCommandArgs], applied to [ctx.message.text]. *)
Definition getCommandArgs (text : jsstring) : jsstring :=
  if startsWith (js "/") text then
    (* text.split(' ').slice(1).join(' ') *)
    Parser.join (drop 1 (split 32 text))
  else
    match dot_match text with
    | Some (_, args) => args
    | None => []
    end.

(** The line of one card in the replies of the gen command:
    [`${card.number}|${card.month}|${card.year}|${card.cvv}`]. *)
Definition card_line (card : Generator.Card) : jsstring :=
  Generator.number card ++ 124 :: Generator.month card
  ++ 124 :: Generator.year card ++ 124 :: Generator.cvv card.

(** A field that holds no separator: no white space and no pipe. *)
Definition field_free (f : Parser.field) : Prop :=
  match f with
  | Some s => forallb (λ c, negb (Parser.separator c)) s = true
  | None => True
  end.

(** A string of digits that is not empty. *)
Definition digits (s : jsstring) : bool :=
  match s with
  | [] => false
  | _ :: _ => forallb is_digit s
  end.

End Args.

(** ** Dot commands: [handleDotCommand] and the text middleware *)

Module Dispatch.
Import JsString Guard Args.

(** [s.toLowerCase()] for a string of word characters. *)
Definition toLowerCase (s : jsstring) : jsstring :=
  map (λ c, if in_range 65 90 c then c + 32 else c) s.

(** The cases of the [switch] of [handleDotCommand]. *)
Inductive DotCommand :=
  | DotClear         (* clear, limpar *)
  | DotGen
  | DotBin
  | DotHelp          (* start, ajuda, help *)
  | DotFavoritos
  | DotHistorial
  | DotAgregarbin
  | DotEliminarbin
  | DotMail
  | DotCheck
  | DotIp.

Definition dot_cases : list (string * DotCommand) :=
  [("clear", DotClear); ("limpar", DotClear); ("gen", DotGen);
   ("bin", DotBin); ("start", DotHelp); ("ajuda", DotHelp);
   ("help", DotHelp); ("favoritos", DotFavoritos);
   ("historial", DotHistorial); ("agregarbin", DotAgregarbin);
   ("eliminarbin", DotEliminarbin); ("mail", DotMail);
   ("check", DotCheck); ("ip", DotIp)]%string.

(** [switch (name)]: the case whose label is [name], if any. *)
Fixpoint find_case (cases : list (string * DotCommand)) (name : jsstring)
  : option DotCommand :=
  match cases with
  | [] => None
  | (label, c) :: rest =>
      if decide (js label = name) then Some c else find_case rest name
  end.

(** What [handleDotCommand] returns, or that it threw. *)
Inductive Handled := HandledTrue | HandledFalse | HandlerThrew.

(** The bodies of the cases: what each does with the arguments, and
    whether it throws. *)
Abbreviation CaseBodies := (DotCommand → jsstring → Ctx → World → World * Outcome).

Definition handleDotCommand (run : CaseBodies) (ctx : Ctx) (w : World)
  : World * Handled :=
  match message ctx ≫= text with
  | None => (w, HandlerThrew)        (* text.startsWith on undefined *)
  | Some t =>
      if negb (startsWith (js ".") t) then (w, HandledFalse)
      else
        match dot_match t with
        | None => (w, HandledFalse)
        | Some (command, args) =>
            let w := emit (ConsoleLog "Comando com ponto detectado:") w in
            match find_case dot_cases (toLowerCase command) with
            | Some c =>
                let '(w, outcome) := run c args ctx w in
                (w, match outcome with
                    | Returned => HandledTrue
                    | Threw => HandlerThrew
                    end)
            | None => (w, HandledFalse)
            end
        end
  end.

(** The body of the [try] block of the text middleware. *)
Definition text_middleware_try (run : CaseBodies) (next : Next)
    (ctx : Ctx) (w : World) : World * Outcome :=
  match message ctx ≫= text with
  | None => (w, Threw)
  | Some t =>
      if startsWith (js ".") t then
        match from_id ctx with
        | None => (w, Threw)
        | Some userId =>
            let '(allowed, w) := isCommandAllowed userId w in
            if negb allowed then
              let w := emit (ConsoleLog "Comando com . ignorado por cooldown:") w in
              (emit (Reply please_wait) w, Returned)
            else
              let w := emit (ConsoleLog "Processando comando com ponto:") w in
              match handleDotCommand run ctx w with
              | (w, HandledTrue) => (w, Returned)
              | (w, HandledFalse) => call next w
              | (w, HandlerThrew) => (w, Threw)
              end
        end
      else call next w
  end.

(** The [catch] of the text middleware: the error is logged and the
    middleware returns. *)
Definition swallow (r : World * Outcome) : World * Outcome :=
  match r with
  | (w, Threw) => (emit (ConsoleLog "Erro no middleware de texto:") w, Returned)
  | (w, Returned) => (w, Returned)
  end.

(** The text middleware: the [try] block and its [catch]. *)
Definition text_middleware (run : CaseBodies) (next : Next)
    (ctx : Ctx) (w : World) : World * Outcome :=
  swallow (text_middleware_try run next ctx w).

(** [bot.on('text', mw)]: the middleware runs on the updates that carry a
    text; every other update goes straight to the rest of the chain. *)
Definition on_text (mw : Next → Ctx → World → World * Outcome) (next : Next)
    (ctx : Ctx) (w : World) : World * Outcome :=
  match message ctx ≫= text with
  | Some _ => mw next ctx w
  | None => next w
  end.

(** The two middlewares in the order of their registration: the slash
    middleware of [bot.use], then the text middleware of [bot.on]. As in
    [middleware], a reply is an event of the world: a [ctx.reply] that is
    rejected is not modelled. *)
Definition pipeline (run : CaseBodies) (next : Next) (ctx : Ctx) (w : World)
  : World * Outcome :=
  middleware (on_text (text_middleware run) next ctx) ctx w.

(** A character of a string. *)
Fixpoint has_char (a : ascii) (s : string) : bool :=
  match s with
  | EmptyString => false
  | String b s' => (if decide (a = b) then true else false) || has_char a s'
  end.

(** Sample updates and case bodies. *)
Definition dot_update (t : string) : Ctx :=
  {| message := Some {| text := Some (js t); message_id := 8%Z |};
     from_id := Some 42%Z |}.

Definition run_ok : CaseBodies := λ _ _ _ w, (emit (Reply "done") w, Returned).
Definition run_throws : CaseBodies := λ _ _ _ w, (w, Threw).

(** An update without text, such as a photo. *)
Definition photo_update : Ctx :=
  {| message := Some {| text := None; message_id := 9%Z |};
     from_id := Some 42%Z |}.

End Dispatch.

(** ** The [cedula] command from its arguments *)

Module CedulaCommand.
Import JsString Js Cedula Args.

(** The test of the cedula: exactly ten digits. *)
Definition valid_cedula (s : jsstring) : bool :=
  (length s =? 10)%nat && forallb is_digit s.

Inductive Reply :=
  | Usage                  (* the usage notice *)
  | Answered (a : Answer).

(** The handler: the validation of the argument, then the lookup. *)
Definition cedula_command (text : jsstring) (net : Network)
  : Reply * list Event :=
  let cedula := trim (getCommandArgs text) in
  match cedula with
  | [] => (Usage, [])
  | _ :: _ =>
      if negb (valid_cedula cedula) then (Usage, [])
      else let '(a, tr) := cedula_lookup net in (Answered a, tr)
  end.

(** The time spent in backoff. *)
Definition backoff (tr : list Event) : Z :=
  foldr (λ e acc, match e with Sleep ms => ms + acc | Fetch _ => acc end)%Z 0%Z tr.

(** A registry whose first request fails and whose second is answered
    with 429. *)
Definition net_down_then_429 : Network := λ attempt,
  if (attempt =? 1)%Z then Throw FetchError
  else Ok {| status := 429; json := Throw SyntaxError |}.

End CedulaCommand.

(** ** The per-user records: favourites and history *)

Module Favorites.
Import JsString Parser.

Record Favorite := {
  fav_bin : field;
  fav_month : field;
  fav_year : field;
  fav_cvv : field
}.

Inductive HistoryEntry :=
  | HistGen (bin : field) (count : nat) (timestamp : jsstring)
  | HistLookup (bin : jsstring) (info : Resolver.LookupResult)
      (timestamp : jsstring)
  | HistIp (ip : jsstring) (info : Js.value) (timestamp : jsstring).

Record UserData := {
  favorites : list Favorite;
  history : list HistoryEntry;
  tempMail : option (jsstring * jsstring * jsstring)
}.

(** The data directory: the record of each user that has a file. *)
Abbreviation Store := (gmap Z UserData).

Definition loadUserData (userId : Z) (store : Store) : UserData :=
  match store !! userId with
  | Some data => data
  | None => {| favorites := []; history := []; tempMail := None |}
  end.

Definition saveUserData (userId : Z) (data : UserData) (store : Store) : Store :=
  <[userId := data]> store.

Definition set_favorites (favs : list Favorite) (data : UserData) : UserData :=
  {| favorites := favs; history := history data; tempMail := tempMail data |}.

Definition set_history (h : list HistoryEntry) (data : UserData) : UserData :=
  {| favorites := favorites data; history := h; tempMail := tempMail data |}.

Inductive Reply :=
  | Usage
  | InvalidBin
  | AlreadyFavorite
  | Added
  | InvalidIndex
  | NotInFavorites
  | Removed (bin : field).

(** [fav.bin === bin] *)
Definition same_bin (bin : field) (fav : Favorite) : bool :=
  bool_decide (fav_bin fav = bin).

(** [favorites.findIndex(fav => fav.bin === bin)]; [None] is -1. *)
Fixpoint findIndex (bin : field) (favs : list Favorite) : option nat :=
  match favs with
  | [] => None
  | fav :: rest =>
      if same_bin bin fav then Some 0%nat
      else S <$> findIndex bin rest
  end.

(** [parseInt(s)] for a string of digits. The value is exact here; the
    number of JavaScript is exact up to 2^53 and stays above 2^53 beyond,
    which the comparisons with a list length cannot tell apart. *)
Definition parseInt (s : jsstring) : Z :=
  fold_left (λ acc c, 10 * acc + Z.of_N (c - 48))%Z s 0%Z.

Section Handlers.

(** [isValidBin] of [utils.js], applied to a parsed bin. *)
Variable isValidBin : field → bool.

(** The case [agregarbin] of [handleDotCommand]. *)
Definition agregarbin (args : jsstring) (userId : Z) (store : Store)
  : Reply * Store :=
  match args with
  | [] => (Usage, store)
  | _ :: _ =>
      let parsedAdd := parseGenInput args in
      if negb (isValidBin (bin parsedAdd)) then (InvalidBin, store)
      else
        let userData := loadUserData userId store in
        if existsb (same_bin (bin parsedAdd)) (favorites userData)
        then (AlreadyFavorite, store)
        else
          let fav := {| fav_bin := bin parsedAdd;
                        fav_month := month parsedAdd;
                        fav_year := year parsedAdd;
                        fav_cvv := cvv parsedAdd |} in
          let userData := set_favorites (favorites userData ++ [fav]) userData in
          (Added, saveUserData userId userData store)
  end.

(** The case [eliminarbin] of [handleDotCommand]. *)
Definition eliminarbin (args : jsstring) (userId : Z) (store : Store)
  : Reply * Store :=
  match args with
  | [] => (Usage, store)
  | _ :: _ =>
      let userData := loadUserData userId store in
      if forallb is_digit args then
        (* an index, counted from one *)
        let index := (parseInt args - 1)%Z in
        if (index <? 0)%Z || (Z.of_nat (length (favorites userData)) <=? index)%Z
        then (InvalidIndex, store)
        else
          let i := Z.to_nat index in
          let removedBin := favorites userData !! i ≫= fav_bin in
          let userData := set_favorites (delete i (favorites userData)) userData in
          (Removed removedBin, saveUserData userId userData store)
      else
        (* a bin, in any form the parser accepts *)
        let parsedDel := parseGenInput args in
        match findIndex (bin parsedDel) (favorites userData) with
        | None => (NotInFavorites, store)
        | Some i =>
            let removedBin := favorites userData !! i ≫= fav_bin in
            let userData := set_favorites (delete i (favorites userData)) userData in
            (Removed removedBin, saveUserData userId userData store)
        end
  end.

End Handlers.

(** No bin is saved twice for any user. *)
Definition no_duplicates (store : Store) : Prop :=
  ∀ userId, NoDup (fav_bin <$> favorites (loadUserData userId store)).

(** From [store] to [store'], nothing changed but the favourites of
    [userId]. *)
Definition only_favorites_changed (userId : Z) (store store' : Store) : Prop :=
  (∀ u, u ≠ userId → store' !! u = store !! u)
  ∧ history (loadUserData userId store') = history (loadUserData userId store)
  ∧ tempMail (loadUserData userId store') = tempMail (loadUserData userId store).

(** Sample data. *)
Definition valid_bin_field (b : field) : bool :=
  from_option Generator.isValidBin false b.

Definition sample_store : Store :=
  {[ 42%Z := {| favorites := [{| fav_bin := Some (js "431940");
                               fav_month := None; fav_year := None;
                               fav_cvv := None |}];
               history := []; tempMail := None |} ]}.

End Favorites.

(** ** The gen handlers: history and BIN information *)

Module GenHandler.
Import JsString Js Resolver Favorites Generator.

(** The six pieces of BIN information shown under the cards. *)
Record GenInfo := {
  info_bank : value;
  info_brand : value;
  info_country : value;
  info_countryCode : value;
  info_type : value;
  info_level : value
}.

(** The placeholder ['Não disponível'], in the code units of the source
    string: its fourteen characters, with ã as 227 and í as 237. *)
Definition nao_disponivel : value :=
  VString (js "N" ++ [227] ++ js "o dispon" ++ [237] ++ js "vel").

(** The slash handler after [lookupBin]: [null] becomes the empty object,
    and every missing piece gets its placeholder. *)
Definition gen_info (binInfo : option LookupResult) : GenInfo :=
  let field (f : LookupResult → value) : value :=
    match binInfo with
    | Some info => f info
    | None => VUndefined
    end in
  {| info_bank := or (field bank) nao_disponivel;
     info_brand := or (field brand) nao_disponivel;
     info_country := or (field country) nao_disponivel;
     info_countryCode := or (field countryCode) (VString []);
     info_type := or (field type) nao_disponivel;
     info_level := or (field level) nao_disponivel |}.

(** The lookup of the slash handler: [lookupBin(bin.slice(0, 6))]. *)
Definition gen_lookup (net : Network) (bin : jsstring) : GenInfo :=
  gen_info (snd (lookupBin net (take 6 bin))).

Section Handler.

Variable random_month : Rand jsstring.
Variable random_year : Rand jsstring.
Variable random_cvv : Rand jsstring.

(** The case [gen] of [handleDotCommand], from the arguments to the
    saved history: the validations and the batch, then the new entry at
    the head of the history of the user. [timestamp] is the reading of the
    clock, [new Date().toISOString()]. *)
Definition gen_dot (args : jsstring) (userId : Z) (timestamp : jsstring)
    (store : Store) : Rand ((Rejection + list Card) * Store) :=
  draw r from gen_command random_month random_year random_cvv args in
  match r with
  | inl rejection => rand_ret (inl rejection, store)
  | inr cards =>
      let userData := loadUserData userId store in
      let entry := HistGen (Parser.bin (Parser.parseGenInput args))
                     (length cards) timestamp in
      let userData := set_history (entry :: history userData) userData in
      rand_ret (inr cards, saveUserData userId userData store)
  end.

End Handler.

End GenHandler.

(** * Properties *)

(** ** The input normalizer *)

Module ParserFacts.
Import JsString Parser.

(** The cvv of the result is the fourth token, unless that token contains
    an x. *)
Lemma parseGenInput_cvv (input : jsstring) :
  cvv (parseGenInput input) =
  let c := tokens input !! 3%nat in
  if truthy c && has_x (str c) then None else c.
Proof.
  unfold parseGenInput. cbv zeta.
  repeat match goal with
         | |- context [let '(_, _) := ?p in _] => destruct p
         end.
  reflexivity.
Qed.


(** C4, as the code has it: the combined MM/YY in the month slot is split
    and the year expanded, but the third positional field sits in the year
    slot, is overwritten by the year taken from the month field, and no cvv
    is read: the cvv comes from the fourth positional field only. *)
Theorem parse_month_slash_year :
  parseGenInput (js "477349002646|05/27|123") =
  {| bin := Some (js "477349002646"); month := Some (js "05");
     year := Some (js "2027"); cvv := None |}.
Proof. vm_compute. reflexivity. Qed.

(** C4, as stated, fails: the result for "477349002646|05/27|123" is not
    the specification with cvv "123". *)
Lemma parse_month_slash_year_no_cvv :
  parseGenInput (js "477349002646|05/27|123") ≠
  {| bin := Some (js "477349002646"); month := Some (js "05");
     year := Some (js "2027"); cvv := Some (js "123") |}.
Proof. vm_compute. discriminate. Qed.

(** C5: on "477349xxxx|2025|06" the two-digit year "06" is first expanded
    to "2006", which no longer looks like a month, so the swap does not
    fire: the month stays "2025" and the year becomes "2006". *)
Theorem parse_reversed_year_month :
  parseGenInput (js "477349xxxx|2025|06") =
  {| bin := Some (js "477349"); month := Some (js "2025");
     year := Some (js "2006"); cvv := None |}.
Proof. vm_compute. reflexivity. Qed.

(** C8, as the code has it: the cvv of the result is decided by the letter
    x alone.  Whenever the fourth positional field contains the letter x
    (in either case) the cvv is unset; whenever it contains none, the cvv
    is that field as it was typed, whatever other letters it holds. *)
Theorem cvv_unset_exactly_with_x (input t : jsstring) :
  tokens input !! 3%nat = Some t →
  ((∃ c, c ∈ t ∧ (c = 120 ∨ c = 88)) → cvv (parseGenInput input) = None)
  ∧ ((∀ c, c ∈ t → c ≠ 120 ∧ c ≠ 88) → cvv (parseGenInput input) = Some t).
Proof.
  intros Ht. rewrite parseGenInput_cvv, Ht. cbn zeta.
  unfold str. simpl default. split.
  - intros (c & Hin & Hc).
    assert (Hx : has_x t = true).
    { unfold has_x. apply existsb_exists. exists c. split.
      - by apply list_elem_of_In.
      - unfold is_x. destruct Hc as [-> | ->]; reflexivity. }
    assert (Htr : truthy (Some t) = true).
    { destruct t; [by apply elem_of_nil in Hin | reflexivity]. }
    by rewrite Htr, Hx.
  - intros Hfree.
    assert (Hx : has_x t = false).
    { unfold has_x. apply not_true_is_false. intros (c & Hin & Hc)%existsb_exists.
      apply list_elem_of_In, Hfree in Hin. destruct Hin as [H120 H88].
      unfold is_x in Hc. apply orb_true_iff in Hc.
      destruct Hc as [Hc | Hc]; apply N.eqb_eq in Hc; congruence. }
    by rewrite Hx, andb_false_r.
Qed.

Lemma cvv_unset_exactly_with_x_witness :
  cvv (parseGenInput (js "477349 05 2027 1Xx")) = None
  ∧ cvv (parseGenInput (js "477349 05 2027 12a")) = Some (js "12a").
Proof.
  split.
  - apply (cvv_unset_exactly_with_x (js "477349 05 2027 1Xx") (js "1Xx")).
    + vm_compute. reflexivity.
    + exists 88. split; [| right; reflexivity].
      vm_compute. apply list_elem_of_In. simpl. tauto.
  - apply (cvv_unset_exactly_with_x (js "477349 05 2027 12a") (js "12a")).
    + vm_compute. reflexivity.
    + intros c Hin. apply list_elem_of_In in Hin. vm_compute in Hin.
      destruct Hin as [<- | [<- | [<- | []]]]; split; discriminate.
Defined.

(** C8, as stated, fails: a cvv field with a letter other than x is kept. *)
Lemma cvv_with_other_letter_is_kept :
  tokens (js "477349 05 2027 12a") !! 3%nat = Some (js "12a")
  ∧ existsb is_letter (js "12a") = true
  ∧ cvv (parseGenInput (js "477349 05 2027 12a")) = Some (js "12a").
Proof. vm_compute. auto. Qed.

(** *** Inputs made of clean tokens joined by single spaces *)

Lemma separator_false (c : N) :
  separator c = false → is_space c = false ∧ (c =? 124) = false.
Proof. unfold separator. by intros ?%orb_false_iff. Qed.

Lemma is_space_32 : is_space 32 = true.
Proof. reflexivity. Qed.

Lemma clean_inv (t : jsstring) :
  clean t = true →
  ∃ c t', t = c :: t' ∧ forallb (λ c, negb (separator c)) t = true.
Proof. destruct t as [| c t']; [done |]. intros H. by exists c, t'. Qed.

Lemma free_cons (c : N) (t : jsstring) :
  forallb (λ c, negb (separator c)) (c :: t) = true →
  separator c = false ∧ forallb (λ c, negb (separator c)) t = true.
Proof.
  simpl. intros [Hc Ht]%andb_true_iff. by apply negb_true_iff in Hc.
Qed.

Lemma collapse_free (b : bool) (c : N) (t rest : jsstring) :
  forallb (λ c, negb (separator c)) (c :: t) = true →
  collapse_spaces b ((c :: t) ++ rest) = (c :: t) ++ collapse_spaces false rest.
Proof.
  revert b c. induction t as [| c' t IH]; intros b c [Hc Ht]%free_cons;
    apply separator_false in Hc as [Hc _]; simpl; rewrite Hc.
  - reflexivity.
  - f_equal. by apply (IH false c').
Qed.

Lemma collapse_join (b : bool) (ts : list jsstring) :
  Forall (λ t, clean t = true) ts → collapse_spaces b (join ts) = join ts.
Proof.
  intros Hall. revert b. induction Hall as [| t ts Ht Hts IH]; intros b; [done |].
  apply clean_inv in Ht as (c & t' & -> & Hfree).
  destruct ts as [| t2 ts].
  - simpl join. rewrite <- (app_nil_r (c :: t')) at 1.
    rewrite collapse_free by done. simpl. by rewrite app_nil_r.
  - change (join ((c :: t') :: t2 :: ts)) with ((c :: t') ++ 32 :: join (t2 :: ts)).
    rewrite collapse_free by done. f_equal.
    cbn [collapse_spaces]. rewrite is_space_32. f_equal. apply IH.
Qed.

Lemma replace_pipes_free (t : jsstring) :
  forallb (λ c, negb (c =? 124)) t = true → replace_pipes t = t.
Proof.
  induction t as [| c t IH]; [done |]. simpl.
  intros [Hc Ht]%andb_true_iff. apply negb_true_iff in Hc.
  unfold replace_pipes in *. simpl. rewrite Hc. f_equal. by apply IH.
Qed.

Lemma free_no_pipe (t : jsstring) :
  forallb (λ c, negb (separator c)) t = true →
  forallb (λ c, negb (c =? 124)) t = true.
Proof.
  induction t as [| c t IH]; [done |]. intros [Hc Ht]%free_cons.
  apply separator_false in Hc as [_ Hc]. simpl. rewrite Hc. by apply IH.
Qed.

Lemma join_no_pipe (ts : list jsstring) :
  Forall (λ t, clean t = true) ts →
  forallb (λ c, negb (c =? 124)) (join ts) = true.
Proof.
  induction 1 as [| t ts Ht Hts IH]; [done |].
  apply clean_inv in Ht as (c & t' & -> & Hfree%free_no_pipe).
  destruct ts as [| t2 ts]; [done |].
  change (join ((c :: t') :: t2 :: ts)) with ((c :: t') ++ 32 :: join (t2 :: ts)).
  rewrite forallb_app, Hfree. simpl. exact IH.
Qed.

Lemma free_no_space (t : jsstring) :
  forallb (λ c, negb (separator c)) t = true →
  forallb (λ c, negb (c =? 32)) t = true.
Proof.
  induction t as [| c t IH]; [done |]. intros [Hc Ht]%free_cons.
  apply separator_false in Hc as [Hc _]. simpl. rewrite IH by done.
  destruct (N.eqb_spec c 32) as [-> | _]; [done | reflexivity].
Qed.

Lemma split_piece (t rest : jsstring) :
  forallb (λ c, negb (c =? 32)) t = true →
  split 32 (t ++ 32 :: rest) = t :: split 32 rest.
Proof.
  induction t as [| c t IH]; [done |].
  simpl. intros [Hc Ht]%andb_true_iff. apply negb_true_iff in Hc.
  by rewrite Hc, IH.
Qed.

Lemma split_last (t : jsstring) :
  forallb (λ c, negb (c =? 32)) t = true → split 32 t = [t].
Proof.
  induction t as [| c t IH]; [done |].
  simpl. intros [Hc Ht]%andb_true_iff. apply negb_true_iff in Hc.
  by rewrite Hc, IH.
Qed.

Lemma split_join (ts : list jsstring) :
  ts ≠ [] → Forall (λ t, clean t = true) ts → split 32 (join ts) = ts.
Proof.
  intros Hne Hall. induction Hall as [| t ts Ht Hts IH]; [done |].
  apply clean_inv in Ht as (c & t' & -> & Hfree%free_no_space).
  destruct ts as [| t2 ts].
  - by apply split_last.
  - change (join ((c :: t') :: t2 :: ts)) with ((c :: t') ++ 32 :: join (t2 :: ts)).
    rewrite split_piece by done. f_equal. by apply IH.
Qed.

(** The first and the last character of the joined tokens are not white
    space, so [trim] leaves the string as it is. *)
Lemma join_first (ts : list jsstring) :
  ts ≠ [] → Forall (λ t, clean t = true) ts →
  ∃ c s, join ts = c :: s ∧ is_space c = false.
Proof.
  intros Hne Hall. destruct Hall as [| t ts Ht Hts]; [done |].
  apply clean_inv in Ht as (c & t' & -> & [Hc _]%free_cons).
  apply separator_false in Hc as [Hc _].
  destruct ts; by eexists c, _.
Qed.

Lemma free_last (c : N) (t : jsstring) :
  forallb (λ c, negb (separator c)) (c :: t) = true →
  ∃ s c', c :: t = s ++ [c'] ∧ is_space c' = false.
Proof.
  revert c. induction t as [| c2 t IH]; intros c [Hc Ht]%free_cons.
  - apply separator_false in Hc as [Hc _]. by exists [], c.
  - destruct (IH c2 Ht) as (s & c' & -> & Hc'). by exists (c :: s), c'.
Qed.

Lemma join_last (ts : list jsstring) :
  ts ≠ [] → Forall (λ t, clean t = true) ts →
  ∃ s c, join ts = s ++ [c] ∧ is_space c = false.
Proof.
  intros Hne Hall. induction Hall as [| t ts Ht Hts IH]; [done |].
  apply clean_inv in Ht as (c & t' & -> & Hfree).
  destruct ts as [| t2 ts].
  - by apply free_last.
  - destruct IH as (s & c' & Heq & Hc'); [done |].
    change (join ((c :: t') :: t2 :: ts)) with ((c :: t') ++ 32 :: join (t2 :: ts)).
    rewrite Heq. exists ((c :: t') ++ 32 :: s), c'. by rewrite <- app_assoc.
Qed.

Lemma trim_join (ts : list jsstring) :
  ts ≠ [] → Forall (λ t, clean t = true) ts → trim (join ts) = join ts.
Proof.
  intros Hne Hall. unfold trim.
  destruct (join_first ts Hne Hall) as (c & s & Heq & Hc).
  destruct (join_last ts Hne Hall) as (s' & c' & Heq' & Hc').
  rewrite Heq. simpl drop_while. rewrite Hc, <- Heq, Heq'.
  rewrite rev_app_distr. simpl. rewrite Hc'.
  change (c' :: rev s') with (rev [c'] ++ rev s').
  by rewrite <- rev_app_distr, rev_involutive.
Qed.

(** The tokens of clean tokens joined by spaces are those tokens. *)
Lemma tokens_join (ts : list jsstring) :
  ts ≠ [] → Forall (λ t, clean t = true) ts → tokens (join ts) = ts.
Proof.
  intros Hne Hall. unfold tokens.
  rewrite trim_join, replace_pipes_free, collapse_join, split_join;
    auto using join_no_pipe.
Qed.




End ParserFacts.

(** ** The cooldown and the slash-command middleware *)

Module GuardFacts.
Import JsString Guard.

Local Open Scope Z_scope.

Lemma stamps_nonzero_empty : stamps_nonzero ∅.
Proof. intros u t H. by rewrite lookup_empty in H. Qed.

Lemma isCommandAllowed_stamps_nonzero (userId : Z) (w : World) :
  clock w ≠ 0 →
  stamps_nonzero (userStates w) →
  stamps_nonzero (userStates (isCommandAllowed userId w).2).
Proof.
  intros Hnow Hinv. unfold isCommandAllowed.
  destruct (_ || _); simpl; [| exact Hinv].
  intros u t. rewrite lookup_insert. case_decide.
  - intros [= <-]. exact Hnow.
  - apply Hinv.
Qed.

(** C6: when the user has no prior timestamp or at least 2000 ms have
    elapsed since it, [isCommandAllowed] returns true and records the
    current time for that user, touching nothing else; otherwise it returns
    false and leaves the whole state unchanged. *)
Theorem isCommandAllowed_cooldown (userId : Z) (w : World) :
  stamps_nonzero (userStates w) →
  (cooled_down userId w →
     isCommandAllowed userId w =
       (true, {| clock := clock w;
                 userStates := <[userId := clock w]> (userStates w);
                 processingCommands := processingCommands w;
                 trace := trace w |}))
  ∧ (¬ cooled_down userId w → isCommandAllowed userId w = (false, w)).
Proof.
  intros Hinv. unfold cooled_down, isCommandAllowed, COOLDOWN_PERIOD.
  destruct (userStates w !! userId) as [last |] eqn:Hlast; simpl.
  - specialize (Hinv _ _ Hlast).
    destruct (Z.eqb_spec last 0) as [? | _]; [done |].
    destruct (Z.leb_spec 2000 (clock w - last)); simpl; split; intros; try done; lia.
  - split; [done | tauto].
Qed.

Lemma isCommandAllowed_cooldown_witness :
  isCommandAllowed 42 world0 =
    (true, {| clock := clock world0;
              userStates := <[42 := clock world0]> (userStates world0);
              processingCommands := processingCommands world0;
              trace := trace world0 |})
  ∧ isCommandAllowed 42 world_cooling = (false, world_cooling).
Proof.
  assert (Hinv : stamps_nonzero {[ 42 := 1700000000000 ]}).
  { intros u t. rewrite lookup_singleton.
    case_decide; [intros [= <-]; lia | done]. }
  split.
  - apply (isCommandAllowed_cooldown 42 world0); [exact Hinv |].
    unfold cooled_down, world0, COOLDOWN_PERIOD. simpl.
    rewrite lookup_singleton_eq. lia.
  - apply (isCommandAllowed_cooldown 42 world_cooling); [exact Hinv |].
    unfold cooled_down, world_cooling, COOLDOWN_PERIOD. simpl.
    rewrite lookup_singleton_eq. lia.
Defined.

Lemma is_slash_command_message (ctx : Ctx) :
  is_slash_command ctx = true → ∃ m, message ctx = Some m.
Proof.
  unfold is_slash_command. destruct (message ctx) as [m |]; [eauto | done].
Qed.

(** C7: for a slash command of user [userId] with message [m]:
    when its key is already in the in-flight set the middleware returns
    with no reply, no handler call and the state unchanged; when the key
    is not in flight and the cooldown denies the command, the in-flight set
    and the cooldown state stay as they were, exactly one reply (the
    "please wait" notice) is sent and no handler is called. *)
Theorem middleware_denied (next : Next) (ctx : Ctx) (w : World)
    (userId : Z) (m : Message) :
  is_slash_command ctx = true →
  message ctx = Some m →
  from_id ctx = Some userId →
  let key := commandKey userId (message_id m) in
  (key ∈ processingCommands w →
     ∃ w' evs, middleware next ctx w = (w', Returned)
       ∧ trace w' = trace w ++ evs
       ∧ replies evs = [] ∧ handler_calls evs = 0%nat
       ∧ processingCommands w' = processingCommands w
       ∧ userStates w' = userStates w)
  ∧ (key ∉ processingCommands w → (isCommandAllowed userId w).1 = false →
     ∃ w' evs, middleware next ctx w = (w', Returned)
       ∧ trace w' = trace w ++ evs
       ∧ replies evs = [please_wait] ∧ handler_calls evs = 0%nat
       ∧ processingCommands w' = processingCommands w
       ∧ userStates w' = userStates w).
Proof.
  intros Hslash Hm Hfrom key. unfold middleware.
  rewrite Hslash, Hfrom, Hm. simpl from_option. fold key.
  split.
  - intros Hin. rewrite decide_True by exact Hin.
    eexists _, [_]. repeat split; reflexivity.
  - intros Hnotin Hdenied. rewrite decide_False by exact Hnotin.
    unfold isCommandAllowed in *.
    destruct (_ || _); simpl in Hdenied; [done |]. simpl.
    eexists _, [ConsoleLog _; Reply please_wait].
    repeat split; simpl; try reflexivity.
    by rewrite <- app_assoc.
Qed.

Lemma middleware_denied_witness :
  (∃ w' evs, middleware next_ok slash_gen world_in_flight = (w', Returned)
     ∧ trace w' = trace world_in_flight ++ evs
     ∧ replies evs = [] ∧ handler_calls evs = 0%nat
     ∧ processingCommands w' = processingCommands world_in_flight
     ∧ userStates w' = userStates world_in_flight)
  ∧ (∃ w' evs, middleware next_ok slash_gen world_cooling = (w', Returned)
     ∧ trace w' = trace world_cooling ++ evs
     ∧ replies evs = [please_wait] ∧ handler_calls evs = 0%nat
     ∧ processingCommands w' = processingCommands world_cooling
     ∧ userStates w' = userStates world_cooling).
Proof.
  split.
  - apply (middleware_denied next_ok slash_gen world_in_flight 42
             {| text := Some (js "/gen 477349"); message_id := 7 |});
      try reflexivity.
  - apply (middleware_denied next_ok slash_gen world_cooling 42
             {| text := Some (js "/gen 477349"); message_id := 7 |});
      try reflexivity.
    simpl. apply not_elem_of_empty.
Defined.

End GuardFacts.

(** ** The BIN resolver *)

Module ResolverFacts.
Import Js Resolver.

Lemma or_value_or (provided : value) (fallback : string) :
  value_or provided fallback (or provided (lit fallback)).
Proof.
  unfold value_or, or. destruct (truthy provided); [left | right]; done.
Qed.

Lemma get_opt_own (props : list (jsstring * value)) (a b : jsstring) :
  get_opt (own props a) b = Ok (nested props a b).
Proof. unfold nested, get_opt, get. by destruct (own props a). Qed.

(** C9: for a payload that is any JSON object, neither mapping raises, and
    each of the six fields of the result is the provider's value when that
    value is truthy and the field's fallback literal otherwise. *)
Theorem mapping_never_raises (props : list (jsstring * value)) :
  (∃ info, fromBinlist (VObject props) = Ok info
     ∧ value_or (nested props (js "bank") (js "name")) "Desconhecido" (bank info)
     ∧ value_or (own props (js "scheme")) "Desconhecida" (brand info)
     ∧ value_or (own props (js "type")) "Desconhecido" (type info)
     ∧ value_or (nested props (js "country") (js "name")) "Desconhecido" (country info)
     ∧ value_or (nested props (js "country") (js "alpha2")) "??" (countryCode info)
     ∧ value_or (own props (js "brand")) "Desconhecido" (level info))
  ∧ (∃ info, fromBintable (VObject props) = Ok info
     ∧ value_or (nested props (js "bank") (js "name")) "Desconhecido" (bank info)
     ∧ value_or (if truthy (own props (js "scheme"))
                 then own props (js "scheme") else own props (js "brand"))
                "Desconhecida" (brand info)
     ∧ value_or (own props (js "type")) "Desconhecido" (type info)
     ∧ value_or (nested props (js "country") (js "name")) "Desconhecido" (country info)
     ∧ value_or (nested props (js "country") (js "code")) "??" (countryCode info)
     ∧ value_or (own props (js "level")) "Desconhecido" (level info)).
Proof.
  split.
  - unfold fromBinlist. cbn [get mbind result_bind].
    rewrite !get_opt_own. cbn [mbind result_bind mret result_ret].
    eexists. split; [reflexivity |]. cbn [bank brand type country countryCode level].
    repeat split; apply or_value_or.
  - unfold fromBintable. cbn [get mbind result_bind].
    rewrite !get_opt_own. cbn [mbind result_bind mret result_ret].
    destruct (truthy (own props (js "scheme"))) eqn:Hs;
      cbn [mbind result_bind mret result_ret];
      (eexists; split; [reflexivity |]);
      cbn [bank brand type country countryCode level];
      repeat split; apply or_value_or.
Qed.

Lemma fromBinlist_object (props : list (jsstring * value)) :
  ∃ info, fromBinlist (VObject props) = Ok info.
Proof.
  unfold fromBinlist. cbn [get mbind result_bind].
  rewrite !get_opt_own. cbn [mbind result_bind mret result_ret]. eauto.
Qed.

Lemma fromBintable_object (props : list (jsstring * value)) :
  ∃ info, fromBintable (VObject props) = Ok info.
Proof.
  unfold fromBintable. cbn [get mbind result_bind].
  rewrite !get_opt_own. cbn [mbind result_bind mret result_ret].
  destruct (truthy (own props (js "scheme")));
    cbn [mbind result_bind mret result_ret]; eauto.
Qed.

Lemma lookupBin_primary_rejects net bin e :
  net Binlist bin = Throw e → lookupBin net bin = ([Binlist], None).
Proof. intros H. unfold lookupBin, lookupBin_try. by rewrite H. Qed.

Lemma lookupBin_primary_ok net bin r1 :
  net Binlist bin = Ok r1 → ok r1 = true →
  lookupBin net bin = ([Binlist], to_option (json r1 ≫= fromBinlist)).
Proof. intros H Hok. unfold lookupBin, lookupBin_try. by rewrite H, Hok. Qed.

Lemma lookupBin_secondary_rejects net bin r1 e :
  net Binlist bin = Ok r1 → ok r1 = false → net Bintable bin = Throw e →
  lookupBin net bin = ([Binlist; Bintable], None).
Proof. intros H Hok H2. unfold lookupBin, lookupBin_try. by rewrite H, Hok, H2. Qed.

Lemma lookupBin_secondary_ok net bin r1 r2 :
  net Binlist bin = Ok r1 → ok r1 = false →
  net Bintable bin = Ok r2 → ok r2 = true →
  lookupBin net bin = ([Binlist; Bintable], to_option (json r2 ≫= fromBintable)).
Proof.
  intros H Hok H2 Hok2. unfold lookupBin, lookupBin_try.
  by rewrite H, Hok, H2, Hok2.
Qed.

Lemma lookupBin_both_refuse net bin r1 r2 :
  net Binlist bin = Ok r1 → ok r1 = false →
  net Bintable bin = Ok r2 → ok r2 = false →
  lookupBin net bin = ([Binlist; Bintable], None).
Proof.
  intros H Hok H2 Hok2. unfold lookupBin, lookupBin_try.
  by rewrite H, Hok, H2, Hok2.
Qed.

Lemma secondary_not_in_primary : Bintable ∈ [Binlist] → False.
Proof. intros H. by apply list_elem_of_singleton in H. Qed.

Lemma secondary_in_both : Bintable ∈ [Binlist; Bintable].
Proof. apply list_elem_of_further, list_elem_of_here. Qed.

(** Unpack what is known of the providers, then close the goal by
    contradiction or by running the mapping. *)
Ltac settle :=
  intros;
  repeat match goal with
         | H : ∃ _, _ |- _ => destruct H
         | H : _ ∧ _ |- _ => destruct H
         | H : _ ∨ _ |- _ => destruct H
         end;
  simplify_eq;
  try congruence;
  try (match goal with
       | H : json _ = Ok (VObject ?p) |- ∃ _, fromBinlist _ = _ ∧ _ =>
           destruct (fromBinlist_object p) as [info Hinfo];
           exists info; rewrite H; cbn [mbind result_bind]; by rewrite Hinfo
       | H : json _ = Ok (VObject ?p) |- ∃ _, fromBintable _ = _ ∧ _ =>
           destruct (fromBintable_object p) as [info Hinfo];
           exists info; rewrite H; cbn [mbind result_bind]; by rewrite Hinfo
       | H : json _ = Throw _ |- _ => by rewrite H
       end);
  try by eauto.

(** C3, as the code has it: the primary provider is always called first
    and the secondary is called exactly when the primary answered with a
    non-success status. A primary answer that parses to an object decides
    the result; after a refusal of the primary, a secondary answer that
    parses to an object decides it. A hard error of the provider being
    asked (a failed request, or a body that is not JSON) ends the lookup
    with null at once, and so does a refusal by both providers. *)
Theorem lookupBin_fallback (net : Network) (bin : jsstring) :
  ((lookupBin net bin).1 = [Binlist] ∨ (lookupBin net bin).1 = [Binlist; Bintable])
  ∧ (Bintable ∈ (lookupBin net bin).1 ↔ refused net Binlist bin)
  ∧ (∀ props, answered net Binlist bin (VObject props) →
       ∃ info, fromBinlist (VObject props) = Ok info
               ∧ lookupBin net bin = ([Binlist], Some info))
  ∧ (∀ props, refused net Binlist bin →
       answered net Bintable bin (VObject props) →
       ∃ info, fromBintable (VObject props) = Ok info
               ∧ lookupBin net bin = ([Binlist; Bintable], Some info))
  ∧ (failed_hard net Binlist bin → lookupBin net bin = ([Binlist], None))
  ∧ (refused net Binlist bin →
       (refused net Bintable bin ∨ failed_hard net Bintable bin) →
       lookupBin net bin = ([Binlist; Bintable], None)).
Proof.
  unfold answered, refused, failed_hard.
  destruct (net Binlist bin) as [r1 | e1] eqn:H1.
  - destruct (ok r1) eqn:Hok1.
    + rewrite (lookupBin_primary_ok _ _ _ H1 Hok1). simpl.
      split_and!; [by left | split | ..]; settle.
      by apply secondary_not_in_primary in H.
    + destruct (net Bintable bin) as [r2 | e2] eqn:H2.
      * destruct (ok r2) eqn:Hok2.
        -- rewrite (lookupBin_secondary_ok _ _ _ _ H1 Hok1 H2 Hok2). simpl.
           split_and!; [by right | split | ..]; settle.
           apply secondary_in_both.
        -- rewrite (lookupBin_both_refuse _ _ _ _ H1 Hok1 H2 Hok2). simpl.
           split_and!; [by right | split | ..]; settle.
           apply secondary_in_both.
      * rewrite (lookupBin_secondary_rejects _ _ _ _ H1 Hok1 H2). simpl.
        split_and!; [by right | split | ..]; settle.
        apply secondary_in_both.
  - rewrite (lookupBin_primary_rejects _ _ _ H1). simpl.
    split_and!; [by left | split | ..]; settle.
    by apply secondary_in_both in H || by apply secondary_not_in_primary in H.
Qed.

Example lookupBin_falls_back_on_500 :
  lookupBin net_primary_500 (js "477349") =
  ([Binlist; Bintable],
   Some {| bank := lit "Banco Pichincha"; brand := lit "visa";
           type := lit "Desconhecido"; country := lit "Desconhecido";
           countryCode := lit "EC"; level := lit "Desconhecido" |}).
Proof. reflexivity. Qed.

Lemma lookupBin_fallback_witness :
  Bintable ∈ fst (lookupBin net_primary_500 (js "477349"))
  ∧ ∃ info, fromBintable payload_bintable = Ok info
            ∧ lookupBin net_primary_500 (js "477349") =
              ([Binlist; Bintable], Some info).
Proof.
  pose proof (lookupBin_fallback net_primary_500 (js "477349"))
    as (_ & Hcalled & _ & Hsecond & _).
  assert (Hrefused : refused net_primary_500 Binlist (js "477349")).
  { eexists. split; reflexivity. }
  split.
  - apply Hcalled, Hrefused.
  - apply Hsecond; [exact Hrefused |]. eexists. repeat split; reflexivity.
Defined.

(** C3, as stated, fails: with the primary provider unreachable (a hard
    error) and a secondary that would answer, the secondary is never called
    and the result is null. *)
Lemma lookupBin_hard_error_no_fallback :
  failed_hard net_primary_down Binlist (js "477349")
  ∧ answered net_primary_down Bintable (js "477349") payload_bintable
  ∧ ¬ (Bintable ∈ fst (lookupBin net_primary_down (js "477349")))
  ∧ (lookupBin net_primary_down (js "477349")).2 = None.
Proof.
  repeat split.
  - left. by exists FetchError.
  - by eexists.
  - simpl. intros Hin. apply list_elem_of_singleton in Hin. done.
Qed.

End ResolverFacts.

(** ** The registry lookup *)

Module CedulaFacts.
Import Js Cedula.

Local Open Scope Z_scope.

(** The loop never performs more than two requests. *)
Lemma cedula_at_most_two_fetches (net : Network) :
  (fetches (snd (cedula_lookup net)) ≤ 2)%nat.
Proof.
  unfold cedula_lookup. cbn [retry_loop]. change (1 + 1) with 2.
  destruct (net 1) as [r1 | e1]; [| destruct (net 2) as [r2 | e2]];
    cbn -[Z.leb Z.ltb Z.eqb]; repeat case_match; simplify_eq; cbv; lia.
Qed.

(** C2: when the first response has status 429 or 5xx, the loop waits for
    the backoff (1200 ms or 800 ms) and then leaves through the final
    [break]: there is one request and no retry, whatever a second request
    would have returned. The answer is the classification of that first
    response. *)
Theorem cedula_transient_status_not_retried (net : Network) (r : Response) :
  net 1 = Ok r →
  (status r = 429 →
     cedula_lookup net = (Overloaded, [Fetch 1; Sleep 1200]))
  ∧ (500 ≤ status r < 600 →
     cedula_lookup net = (GenericError, [Fetch 1; Sleep 800])).
Proof.
  intros H1. unfold cedula_lookup. simpl retry_loop. rewrite H1. split.
  - intros Hs. rewrite Hs. cbn. rewrite Hs. reflexivity.
  - intros [Hlo Hhi].
    destruct (Z.eqb_spec (status r) 429) as [? | _]; [lia |].
    rewrite (proj2 (Z.leb_le _ _) Hlo), (proj2 (Z.ltb_lt _ _) Hhi). cbn -[Z.eqb Z.leb].
    destruct (Z.eqb_spec (status r) 404) as [? | _]; [lia |].
    destruct (Z.eqb_spec (status r) 429) as [? | _]; [lia |].
    destruct (Z.leb_spec 400 (status r)); [done | lia].
Qed.

Lemma cedula_transient_status_not_retried_witness :
  cedula_lookup net_429_then_200 = (Overloaded, [Fetch 1; Sleep 1200])
  ∧ fetches (snd (cedula_lookup net_429_then_200)) = 1%nat.
Proof.
  split.
  - apply (cedula_transient_status_not_retried net_429_then_200
             {| status := 429; json := Throw SyntaxError |});
      reflexivity.
  - reflexivity.
Defined.

End CedulaFacts.

(** ** The card generator *)

Module GeneratorFacts.
Import JsString Generator.

Local Open Scope nat_scope.
Local Arguments Nat.modulo : simpl never.
Local Arguments Nat.div : simpl never.










Lemma isValidBin_inv (bin : jsstring) :
  isValidBin bin = true →
  forallb is_digit bin = true ∧ 6 ≤ length bin ≤ 16.
Proof.
  unfold isValidBin. intros H.
  apply andb_true_iff in H as [H H16]. apply andb_true_iff in H as [Hd H6].
  apply Nat.leb_le in H16, H6. auto.
Qed.



Lemma repeat_rand_spec {A} (P : A → Prop) (m : Rand A) (n : nat) (g : Rng) :
  (∀ g', P (fst (m g'))) →
  length (fst (repeat_rand n m g)) = n ∧ Forall P (fst (repeat_rand n m g)).
Proof.
  intros HP. revert g. induction n as [| n IH]; intros g; [by split |].
  simpl. unfold rand_bind, rand_ret.
  pose proof (HP g) as Hhere.
  destruct (m g) as [a g1]. specialize (IH g1).
  destruct (repeat_rand n m g1) as [rest g2]. simpl in *.
  destruct IH as [Hlen Hall]. split; [lia | by constructor].
Qed.


Section Batch.

Variables random_month random_year random_cvv : Rand jsstring.


End Batch.

(** At the level of the command: whenever the handler gets as far as the
    batch, the cards are the batch for the parsed bin, which is a valid
    bin. *)
Lemma gen_command_cards (random_month random_year random_cvv : Rand jsstring)
    (input : jsstring) (g : Rng) (cards : list Card) :
  fst (gen_command random_month random_year random_cvv input g) = inr cards →
  ∃ bin, Parser.bin (Parser.parseGenInput input) = Some bin
         ∧ isValidBin bin = true
         ∧ cards = fst (genCards random_month random_year random_cvv bin
                          (Parser.month (Parser.parseGenInput input))
                          (Parser.year (Parser.parseGenInput input))
                          (Parser.cvv (Parser.parseGenInput input)) g).
Proof.
  unfold gen_command. destruct input as [| c input]; [done |].
  generalize (Parser.parseGenInput (c :: input)). intros parsed.
  destruct (Parser.bin parsed) as [bin |]; cbn [from_option]; [| done].
  destruct (isValidBin bin) eqn:Hvalid; cbn [negb]; [| done].
  repeat match goal with
         | |- context [if ?b then _ else _] => destruct b; [done |]
         end.
  unfold rand_bind, rand_ret. cbn [Parser.str default]. change (id bin) with bin.
  destruct (genCards _ _ _ bin _ _ _ g) as [cs g'] eqn:Hcs. cbn [fst].
  intros [= <-]. exists bin. by rewrite Hcs.
Qed.

Example gen_command_sample :
  fst (gen_command sample_month sample_year sample_cvv
         (js "477349xxxx|05|2027|123") sample_draws) =
  inr (fst (genCards sample_month sample_year sample_cvv bin6
              (Some (js "05")) (Some (js "2027")) (Some (js "123"))
              sample_draws)).
Proof. vm_compute. reflexivity. Qed.

End GeneratorFacts.

(** ** The gen handler over the two functions of [utils.js] *)

Module GenCommandFacts.
Import JsString Generator GenCommand GeneratorFacts.

Local Open Scope nat_scope.

(** With the bin predicate and the generator of section 4.3, the handler
    is [gen_command]. *)
Lemma gen_handler_section_4_3 (random_month random_year random_cvv : Rand jsstring)
    (input : jsstring) :
  gen_handler isValidBin (generateCard random_month random_year random_cvv) input
  = gen_command random_month random_year random_cvv input.
Proof. reflexivity. Qed.

Lemma gen_card_fst (generateCard : jsstring → Rand Card) (bin : jsstring)
    (fixedMonth fixedYear fixedCVV : Parser.field) (g : Rng) :
  fst (gen_card generateCard bin fixedMonth fixedYear fixedCVV g)
  = overridden fixedMonth fixedYear fixedCVV (fst (generateCard bin g)).
Proof.
  unfold gen_card, rand_bind, rand_ret. by destruct (generateCard bin g).
Qed.

(** Digits are neither separators nor the letter x. *)
Lemma digit_not_separator (c : N) :
  is_digit c = true → Parser.separator c = false ∧ is_x c = false.
Proof.
  unfold is_digit. intros [H48 H57]%andb_true_iff.
  apply N.leb_le in H48, H57.
  unfold Parser.separator, is_space, is_x.
  repeat match goal with
         | |- context [(?a =? ?b)%N] =>
             rewrite (proj2 (N.eqb_neq a b)) by lia
         | |- context [(?a <=? c)%N] =>
             first [rewrite (proj2 (N.leb_gt a c)) by lia
                   | rewrite (proj2 (N.leb_le a c)) by lia]
         | |- context [(c <=? ?b)%N] =>
             first [rewrite (proj2 (N.leb_gt c b)) by lia
                   | rewrite (proj2 (N.leb_le c b)) by lia]
         end.
  done.
Qed.

Lemma bin_digits_clean (c : N) (s : jsstring) :
  forallb is_digit (c :: s) = true → Parser.clean (c :: s) = true.
Proof.
  unfold Parser.clean. generalize (c :: s). intros t Hd.
  induction t as [| d t IH]; [done |]. simpl in *.
  apply andb_true_iff in Hd as [Hd Ht].
  destruct (digit_not_separator d Hd) as [-> _]. by rewrite IH.
Qed.

Lemma bin_digits_keep (s : jsstring) :
  forallb is_digit s = true → strip_trailing_x s = s.
Proof.
  intros Hd. unfold strip_trailing_x.
  destruct (rev s) as [| c r] eqn:Hrev; [by rewrite <- (rev_involutive s), Hrev |].
  assert (Hc : is_digit c = true).
  { rewrite forallb_forall in Hd. apply Hd, in_rev. rewrite Hrev. by left. }
  simpl. destruct (digit_not_separator c Hc) as [_ ->].
  by rewrite <- Hrev, rev_involutive.
Qed.

(** An accepted bin sent alone is parsed to itself, with no override. *)
Lemma parse_bin_alone (bin : jsstring) :
  isValidBin bin = true →
  Parser.parseGenInput bin =
  {| Parser.bin := Some bin; Parser.month := None;
     Parser.year := None; Parser.cvv := None |}.
Proof.
  intros [Hd [H6 _]]%isValidBin_inv.
  destruct bin as [| c s]; [simpl in H6; lia |].
  assert (Htokens : Parser.tokens (c :: s) = [c :: s]).
  { apply (ParserFacts.tokens_join [c :: s]); [done |].
    constructor; [by apply bin_digits_clean | constructor]. }
  unfold Parser.parseGenInput. rewrite Htokens. cbv zeta.
  change ([c :: s] !! 0) with (Some (c :: s)).
  change ([c :: s] !! 1) with (@None jsstring).
  change ([c :: s] !! 2) with (@None jsstring).
  change ([c :: s] !! 3) with (@None jsstring).
  cbn [Parser.truthy Parser.str default andb]. change (id (c :: s)) with (c :: s).
  by rewrite (bin_digits_keep (c :: s) Hd).
Qed.



(** An accepted bin sent alone gives exactly 10 cards, each a card
    returned by [generateCard] for that bin, whatever [generateCard] is. *)
Lemma gen_handler_bin_alone (generateCard : jsstring → Rand Card)
    (bin : jsstring) (g : Rng) :
  isValidBin bin = true →
  ∃ cards, fst (gen_handler isValidBin generateCard bin g) = inr cards
    ∧ length cards = 10
    ∧ Forall (λ card, ∃ g', card = fst (generateCard bin g')) cards.
Proof.
  intros Hvalid. unfold gen_handler.
  rewrite (parse_bin_alone bin Hvalid).
  destruct bin as [| c s]; [done |].
  cbn [Parser.bin Parser.month Parser.year Parser.cvv from_option
       Parser.truthy Parser.str default andb].
  rewrite Hvalid. cbn [negb]. unfold rand_bind at 1, rand_ret.
  match goal with
  | |- context [repeat_rand 10 ?m ?g0] =>
      destruct (repeat_rand_spec
                  (λ card, ∃ g', card = fst (generateCard (c :: s) g')) m 10 g0)
        as [Hlen Hall];
      [ intros g'; rewrite gen_card_fst; by exists g'
      | destruct (repeat_rand 10 m g0) as [cards g1]; by exists cards ]
  end.
Qed.


End GenCommandFacts.

(** * Further properties of the code *)

(** ** More on the input normalizer *)

Module ParserMore.
Import JsString Parser.

Lemma drop_while_all (p : N → bool) (s : jsstring) :
  forallb p s = true → drop_while p s = [].
Proof.
  induction s as [| c s IH]; [done |]. simpl.
  intros [Hc Hs]%andb_true_iff. rewrite Hc. by apply IH.
Qed.

Lemma drop_while_head (p : N → bool) (s : jsstring) (c : N) (r : jsstring) :
  drop_while p s = c :: r → p c = false.
Proof.
  induction s as [| a s IH]; [done |]. simpl.
  destruct (p a) eqn:Ha; [done |]. by intros [= <- _].
Qed.

Lemma drop_while_none (p : N → bool) (s : jsstring) :
  forallb (λ c, negb (p c)) s = true → drop_while p s = s.
Proof.
  destruct s as [| c s]; [done |]. simpl.
  intros [Hc _]%andb_true_iff. apply negb_true_iff in Hc. by rewrite Hc.
Qed.

Ltac bools :=
  repeat match goal with
         | H : _ && _ = true |- _ => apply andb_true_iff in H as [? ?]
         | H : (_ =? _)%nat = true |- _ => apply Nat.eqb_eq in H
         end.

Lemma parseGenInput_bin (input : jsstring) :
  bin (parseGenInput input) =
  let b := tokens input !! 0%nat in
  if truthy b then Some (strip_trailing_x (str b)) else b.
Proof.
  unfold parseGenInput. cbv zeta.
  repeat match goal with
         | |- context [let '(_, _) := ?p in _] => destruct p
         end.
  reflexivity.
Qed.

(** X1: an input made of white space only is parsed to an empty bin and
    no other field. *)
Theorem parse_blank (input : jsstring) :
  forallb is_space input = true →
  parseGenInput input =
  {| bin := Some []; month := None; year := None; cvv := None |}.
Proof.
  intros Hblank.
  assert (Htokens : tokens input = [[]]).
  { unfold tokens, trim. by rewrite (drop_while_all _ _ Hblank). }
  unfold parseGenInput. rewrite Htokens. reflexivity.
Qed.

Lemma parse_blank_witness :
  parseGenInput (js "   ") =
  {| bin := Some []; month := None; year := None; cvv := None |}.
Proof. apply parse_blank. reflexivity. Defined.

Lemma strip_trailing_x_last (t s : jsstring) (c : N) :
  strip_trailing_x t = s ++ [c] → is_x c = false.
Proof.
  unfold strip_trailing_x. intros H.
  apply (f_equal (@rev N)) in H. rewrite rev_involutive, rev_app_distr in H.
  simpl in H. by apply drop_while_head in H.
Qed.

(** X2: whatever the input, the bin of the result does not end with an x
    (in either case) and the cvv of the result contains no x. *)
Theorem parse_no_placeholder_left (input : jsstring) :
  (∀ b s c, bin (parseGenInput input) = Some b → b = s ++ [c] → is_x c = false)
  ∧ (∀ v, cvv (parseGenInput input) = Some v → has_x v = false).
Proof.
  split.
  - intros b s c. rewrite parseGenInput_bin. cbv zeta.
    destruct (tokens input !! 0%nat) as [[| a t] |]; simpl.
    + intros [= <-] H. by destruct s.
    + intros [= <-] H. by apply strip_trailing_x_last in H.
    + done.
  - intros v. rewrite ParserFacts.parseGenInput_cvv. cbv zeta.
    destruct (tokens input !! 3%nat) as [t |]; [| done].
    unfold str. cbn [default from_option id].
    destruct (truthy (Some t)) eqn:Ht, (has_x t) eqn:Hx;
      cbn [andb]; intros [= <-]; try done.
    by destruct t.
Qed.

(** X3: the year of the result never has exactly two characters: a
    two-character year is always expanded. *)
Theorem parse_year_never_two_chars (input y : jsstring) :
  year (parseGenInput input) = Some y → length y ≠ 2%nat.
Proof.
  unfold parseGenInput. cbv zeta.
  generalize (tokens input !! 0%nat) (tokens input !! 1%nat)
    (tokens input !! 2%nat) (tokens input !! 3%nat).
  intros b0 m0 y0 c0.
  repeat case_match; simplify_eq; cbn [year];
    intros Hy Hlen; rewrite ?Hy in *; simplify_eq;
    unfold str in *; cbn [default from_option id] in *; bools;
    try (rewrite ?length_app in *; simpl in *; lia);
    try (destruct y as [| ? [| ? [| ? ?]]]; simpl in *; done || lia).
Qed.

Lemma parse_year_never_two_chars_witness :
  year (parseGenInput (js "477349|05|27")) = Some (js "2027")
  ∧ length (js "2027") ≠ 2%nat.
Proof.
  split; [reflexivity |].
  apply (parse_year_never_two_chars (js "477349|05|27") (js "2027")).
  reflexivity.
Defined.

Lemma year_20xx_no_slash (m : jsstring) :
  is_year_20xx m = true → has_slash m = false ∧ length m = 4%nat.
Proof.
  destruct m as [| a [| b [| c [| d [| ? ?]]]]]; try done.
  unfold is_year_20xx, has_slash, in_range, is_digit. simpl.
  intros H.
  repeat match goal with
         | H : _ && _ = true |- _ => apply andb_true_iff in H as [? ?]
         | H : (_ =? _) = true |- _ => apply N.eqb_eq in H
         | H : (_ <=? _) = true |- _ => apply N.leb_le in H
         end.
  split; [| done].
  repeat (apply orb_false_iff; split); try done; apply N.eqb_neq; lia.
Qed.

(** A year of the form 20xx in the month slot leaves a month that is
    set and is not a month, whether or not the swap fires. *)
Lemma parse_year_in_month_slot (input m : jsstring) :
  tokens input !! 1%nat = Some m →
  is_year_20xx m = true →
  truthy (month (parseGenInput input)) = true
  ∧ length (str (month (parseGenInput input))) ≠ 2%nat.
Proof.
  intros Hm [Hslash Hlen]%year_20xx_no_slash.
  unfold parseGenInput. cbv zeta. rewrite Hm.
  generalize (tokens input !! 0%nat) (tokens input !! 2%nat)
    (tokens input !! 3%nat).
  intros b0 y0 c0.
  unfold str. cbn [default from_option id]. rewrite Hslash, andb_false_r.
  repeat case_match; simplify_eq; cbn [month];
    cbn [default from_option id] in *; bools;
    (split; [done || (by destruct m) | ]);
    try (rewrite ?length_app in *; simpl in *; lia);
    try (intros Hl;
         match goal with
         | H : truthy ?o = true |- _ => rewrite H in *
         end;
         rewrite Hl in *; done).
Qed.

(** *** The lines of the gen reply can be fed back to the parser *)

Lemma digit_not_special (c : N) :
  is_digit c = true →
  separator c = false ∧ is_x c = false ∧ (c =? 47) = false.
Proof.
  unfold is_digit. intros [Hlo Hhi]%andb_true_iff.
  apply N.leb_le in Hlo, Hhi.
  assert (Hc : c ∈ [48; 49; 50; 51; 52; 53; 54; 55; 56; 57]).
  { assert (∃ k, c = 48 + N.of_nat k ∧ (k < 10)%nat) as (k & -> & Hk).
    { exists (N.to_nat (c - 48)). lia. }
    do 10 (destruct k as [| k]; [set_solver |]). lia. }
  repeat (apply elem_of_cons in Hc as [-> | Hc]; [done |]).
  by apply elem_of_nil in Hc.
Qed.

Lemma digits_inv (s : jsstring) :
  Args.digits s = true → s ≠ [] ∧ forallb is_digit s = true.
Proof. by destruct s. Qed.

Lemma forallb_impl (p q : N → bool) (s : jsstring) :
  (∀ c, p c = true → q c = true) → forallb p s = true → forallb q s = true.
Proof.
  intros Hpq. induction s as [| c s IH]; [done |]. simpl.
  intros [Hc Hs]%andb_true_iff. by rewrite (Hpq c Hc), IH.
Qed.

Lemma digits_clean (s : jsstring) : Args.digits s = true → clean s = true.
Proof.
  intros [Hne Hd]%digits_inv. destruct s as [| c s]; [done |].
  unfold clean. revert Hd. apply forallb_impl.
  intros a [Ha _]%digit_not_special. by rewrite Ha.
Qed.

Lemma digits_no_x (s : jsstring) :
  forallb is_digit s = true → has_x s = false.
Proof.
  induction s as [| c s IH]; [done |]. simpl.
  intros [(_ & Hc & _)%digit_not_special Hs]%andb_true_iff.
  unfold has_x in *. simpl. by rewrite Hc, IH.
Qed.

Lemma digits_no_slash (s : jsstring) :
  forallb is_digit s = true → has_slash s = false.
Proof.
  induction s as [| c s IH]; [done |]. simpl.
  intros [(_ & _ & Hc)%digit_not_special Hs]%andb_true_iff.
  unfold has_slash in *. simpl. by rewrite Hc, IH.
Qed.

Lemma digits_strip (s : jsstring) :
  forallb is_digit s = true → strip_trailing_x s = s.
Proof.
  intros Hd. unfold strip_trailing_x.
  rewrite drop_while_none; [apply rev_involutive |].
  apply forallb_forall. intros c Hc%in_rev.
  rewrite forallb_forall in Hd.
  destruct (digit_not_special c (Hd c Hc)) as (_ & Hx & _). by rewrite Hx.
Qed.

Lemma trim_id (s s' : jsstring) (c c' : N) :
  s = c :: s' → (∃ r, s = r ++ [c']) →
  is_space c = false → is_space c' = false → trim s = s.
Proof.
  intros Hfirst [r Hlast] Hc Hc'. unfold trim.
  rewrite Hfirst. simpl drop_while. rewrite Hc, <- Hfirst, Hlast.
  rewrite rev_app_distr. simpl. rewrite Hc'.
  change (c' :: rev r) with (rev [c'] ++ rev r).
  by rewrite <- rev_app_distr, rev_involutive.
Qed.

Lemma clean_no_pipe (t : jsstring) :
  clean t = true → replace_pipes t = t.
Proof.
  intros (c & t' & -> & Hfree)%ParserFacts.clean_inv.
  by apply ParserFacts.replace_pipes_free, ParserFacts.free_no_pipe.
Qed.

(** The tokens of four clean fields joined by pipes are the fields. *)
Lemma tokens_piped (a b c d : jsstring) :
  clean a = true → clean b = true → clean c = true → clean d = true →
  tokens (a ++ 124 :: b ++ 124 :: c ++ 124 :: d) = [a; b; c; d].
Proof.
  intros Ha Hb Hc Hd.
  assert (Hall : Forall (λ t, clean t = true) [a; b; c; d])
    by (repeat constructor; done).
  assert (Hpipes : replace_pipes (a ++ 124 :: b ++ 124 :: c ++ 124 :: d) =
                   join [a; b; c; d]).
  { unfold replace_pipes. rewrite !map_app. simpl. rewrite !map_app. simpl.
    rewrite !map_app. simpl. fold (replace_pipes a) (replace_pipes b)
      (replace_pipes c) (replace_pipes d).
    by rewrite !clean_no_pipe. }
  unfold tokens.
  destruct (ParserFacts.join_first [a; b; c; d]) as (x & s & Hx & Hxs); [done.. |].
  destruct (ParserFacts.join_last [a; b; c; d]) as (r & z & Hz & Hzs); [done.. |].
  apply ParserFacts.clean_inv in Ha as Ha'. destruct Ha' as (a1 & a' & -> & _).
  apply ParserFacts.clean_inv in Hd as Hd'. destruct Hd' as (d1 & d' & -> & Hdfree).
  destruct (ParserFacts.free_last d1 d' Hdfree) as (dr & dz & Hdeq & Hdz).
  rewrite (trim_id _ (a' ++ 124 :: b ++ 124 :: c ++ 124 :: d1 :: d') a1 dz).
  - rewrite Hpipes, ParserFacts.collapse_join, ParserFacts.split_join; done.
  - reflexivity.
  - exists ((a1 :: a') ++ 124 :: b ++ 124 :: c ++ 124 :: dr).
    rewrite Hdeq.
    repeat (rewrite <- app_assoc || rewrite <- app_comm_cons). reflexivity.
  - simpl in Hx. injection Hx as <- _. exact Hxs.
  - exact Hdz.
Qed.

(** X4: a card line of the gen reply, given back as input, is parsed to
    the fields of the card, the two-digit year expanded to four. *)
Theorem parse_card_line (card : Generator.Card) :
  Args.digits (Generator.number card) = true →
  Args.digits (Generator.month card) = true →
  length (Generator.month card) = 2%nat →
  Args.digits (Generator.year card) = true →
  length (Generator.year card) = 2%nat →
  Args.digits (Generator.cvv card) = true →
  parseGenInput (Args.card_line card) =
  {| bin := Some (Generator.number card);
     month := Some (Generator.month card);
     year := Some (js "20" ++ Generator.year card);
     cvv := Some (Generator.cvv card) |}.
Proof.
  destruct card as [n m y c]. unfold Args.card_line. simpl.
  intros Hn Hm Hm2 Hy Hy2 Hc.
  unfold parseGenInput.
  rewrite tokens_piped by (by apply digits_clean).
  apply digits_inv in Hn as [Hn0 Hn], Hm as [_ Hm], Hy as [_ Hy], Hc as [Hc0 Hc].
  cbv zeta. cbn [lookup list_lookup].
  destruct n as [| n1 n]; [done |]. destruct c as [| c1 c]; [done |].
  destruct m as [| m1 [| m2 [| ? ?]]]; try done.
  destruct y as [| y1 [| y2 [| ? ?]]]; try done.
  cbn [truthy str default from_option id andb length Nat.eqb].
  rewrite (digits_no_slash _ Hm), (digits_no_x _ Hc), (digits_strip _ Hn).
  reflexivity.
Qed.

(** *** No separator survives in a field *)

Lemma replace_pipes_no_pipe (s : jsstring) :
  forallb (λ c, negb (c =? 124)) (replace_pipes s) = true.
Proof.
  induction s as [| c s IH]; [done |]. unfold replace_pipes in *.
  cbn [map forallb]. rewrite IH, andb_true_r.
  destruct (N.eqb_spec c 124) as [-> | Hne]; [done |].
  by apply negb_true_iff, N.eqb_neq.
Qed.

Lemma collapse_spaces_chars (b : bool) (s : jsstring) :
  forallb (λ c, negb (c =? 124)) s = true →
  forallb (λ c, negb (separator c) || (c =? 32)) (collapse_spaces b s) = true.
Proof.
  revert b. induction s as [| c s IH]; intros b; [done |]. simpl.
  intros [Hc Hs]%andb_true_iff.
  destruct (is_space c) eqn:Hsp.
  - destruct b; simpl; rewrite ?orb_true_r; by apply IH.
  - simpl. rewrite IH by done. unfold separator. rewrite Hsp.
    apply negb_true_iff in Hc. by rewrite Hc.
Qed.

Lemma split_pieces (q : N → bool) (sep : N) (s : jsstring) :
  forallb q s = true →
  Forall (λ p, forallb (λ c, q c && negb (c =? sep)) p = true) (split sep s).
Proof.
  induction s as [| c s IH]; [by repeat constructor |]. simpl.
  intros [Hc Hs]%andb_true_iff. specialize (IH Hs).
  destruct (N.eqb_spec c sep) as [-> | Hne].
  - by constructor.
  - assert (Hcc : q c && negb (c =? sep) = true).
    { rewrite Hc. by apply negb_true_iff, N.eqb_neq. }
    destruct (split sep s) as [| p ps].
    + repeat constructor. simpl. by rewrite Hcc.
    + apply Forall_cons in IH as [Hp Hps]. constructor; [| done].
      simpl. by rewrite Hcc, Hp.
Qed.

Lemma tokens_free (input : jsstring) (i : nat) :
  Args.field_free (tokens input !! i).
Proof.
  destruct (tokens input !! i) as [t |] eqn:Ht; [| done]. simpl.
  unfold tokens in Ht.
  pose proof (split_pieces _ 32 _
    (collapse_spaces_chars false _ (replace_pipes_no_pipe (trim input)))) as Hall.
  rewrite Forall_lookup in Hall. specialize (Hall i t Ht). simpl in Hall.
  revert Hall. apply forallb_impl. intros c [Hc Hne]%andb_true_iff.
  apply negb_true_iff in Hne. rewrite Hne, orb_false_r in Hc. done.
Qed.

Lemma drop_while_forallb (p q : N → bool) (s : jsstring) :
  forallb p s = true → forallb p (drop_while q s) = true.
Proof.
  induction s as [| c s IH]; [done |]. simpl.
  intros H. destruct (q c); [| done].
  apply andb_true_iff in H as [_ H]. by apply IH.
Qed.

Lemma forallb_rev_1 (p : N → bool) (s : jsstring) :
  forallb p s = true → forallb p (rev s) = true.
Proof.
  rewrite !forallb_forall. intros H c Hc%in_rev. by apply H.
Qed.

Lemma strip_free (s : jsstring) :
  Args.field_free (Some s) → Args.field_free (Some (strip_trailing_x s)).
Proof.
  simpl. intros H. unfold strip_trailing_x.
  by apply forallb_rev_1, drop_while_forallb, forallb_rev_1.
Qed.

Lemma slash_piece_free (s : jsstring) (i : nat) :
  Args.field_free (Some s) → Args.field_free (split 47 s !! i).
Proof.
  simpl. intros H. destruct (split 47 s !! i) as [p |] eqn:Hp; [| done].
  pose proof (split_pieces _ 47 _ H) as Hall.
  rewrite Forall_lookup in Hall. specialize (Hall i p Hp). simpl in *.
  revert Hall. apply forallb_impl. by intros c [Hc _]%andb_true_iff.
Qed.

Lemma century_free (f : field) :
  Args.field_free f → Args.field_free (Some (js "20" ++ str f)).
Proof. destruct f as [s |]; simpl; [done | done]. Qed.

Lemma str_free (f : field) :
  Args.field_free f → Args.field_free (Some (str f)).
Proof. by destruct f. Qed.

(** X27: no field of the result holds a separator: whatever the input,
    the bin, the month, the year and the cvv are free of white space and
    of pipes. *)
Theorem parse_fields_free (input : jsstring) :
  Args.field_free (bin (parseGenInput input))
  ∧ Args.field_free (month (parseGenInput input))
  ∧ Args.field_free (year (parseGenInput input))
  ∧ Args.field_free (cvv (parseGenInput input)).
Proof.
  unfold parseGenInput. cbv zeta.
  pose proof (tokens_free input 0) as Hb.
  pose proof (tokens_free input 1) as Hm.
  pose proof (tokens_free input 2) as Hy.
  pose proof (tokens_free input 3) as Hc.
  revert Hb Hm Hy Hc.
  generalize (tokens input !! 0%nat) (tokens input !! 1%nat)
    (tokens input !! 2%nat) (tokens input !! 3%nat).
  intros b0 m0 y0 c0 Hb Hm Hy Hc.
  repeat case_match; simplify_eq; cbn [bin month year cvv];
    split_and!;
    try exact I;
    auto 6 using strip_free, str_free, slash_piece_free, century_free.
Qed.

Lemma parse_card_line_witness :
  parseGenInput (js "4773490026461234|05|27|123") =
  {| bin := Some (js "4773490026461234"); month := Some (js "05");
     year := Some (js "2027"); cvv := Some (js "123") |}.
Proof.
  apply (parse_card_line
           {| Generator.number := js "4773490026461234";
              Generator.month := js "05"; Generator.year := js "27";
              Generator.cvv := js "123" |}); reflexivity.
Defined.

End ParserMore.

(** ** The arguments of a command *)

Module ArgsFacts.
Import JsString Parser Args.

Lemma split_not_nil (sep : N) (s : jsstring) : split sep s ≠ [].
Proof.
  induction s as [| c s IH]; [done |]. simpl.
  destruct (c =? sep); [done |]. by destruct (split sep s).
Qed.

(** Splitting on the space and joining with the space gives the string
    back. *)
Lemma join_split (s : jsstring) : join (split 32 s) = s.
Proof.
  induction s as [| c s IH]; [done |]. simpl.
  pose proof (split_not_nil 32 s) as Hne.
  destruct (N.eqb_spec c 32) as [-> | _].
  - destruct (split 32 s) as [| p ps]; [done |].
    change (join ([] :: p :: ps)) with (32 :: join (p :: ps)). by rewrite IH.
  - destruct (split 32 s) as [| p ps]; [done |].
    destruct ps as [| p2 ps]; simpl in *; by rewrite <- IH.
Qed.

Lemma no_space_split (t : jsstring) :
  forallb (λ c, negb (c =? 32)) t = true → split 32 t = [t].
Proof. apply ParserFacts.split_last. Qed.

(** X5: for the slash form, the arguments are everything after the first
    space, unchanged (further spaces and line breaks included), and a
    command with no space has no arguments. *)
Theorem getCommandArgs_slash (command args : jsstring) :
  startsWith (js "/") command = true →
  forallb (λ c, negb (c =? 32)) command = true →
  getCommandArgs (command ++ 32 :: args) = args
  ∧ getCommandArgs command = [].
Proof.
  intros Hslash Hfree. unfold getCommandArgs.
  destruct command as [| c command]; [done |].
  simpl in Hslash. apply andb_true_iff in Hslash as [Hc _].
  split.
  - simpl startsWith. rewrite Hc. cbn [andb].
    rewrite (ParserFacts.split_piece (c :: command) args Hfree).
    simpl drop. apply join_split.
  - simpl startsWith. rewrite Hc. cbn [andb].
    by rewrite (no_space_split _ Hfree).
Qed.

Lemma getCommandArgs_slash_witness :
  getCommandArgs (js "/gen 477349xxxx|05|2027  rnd") = js "477349xxxx|05|2027  rnd"
  ∧ getCommandArgs (js "/gen") = [].
Proof.
  apply (getCommandArgs_slash (js "/gen") (js "477349xxxx|05|2027  rnd"));
    reflexivity.
Defined.

Lemma take_while_forallb (p : N → bool) (s : jsstring) :
  forallb p (take_while p s) = true.
Proof.
  induction s as [| c s IH]; [done |]. simpl.
  destruct (p c) eqn:Hc; [| done]. simpl. by rewrite Hc, IH.
Qed.

Lemma take_while_head (p q : N → bool) (s : jsstring) (c : N) (r : jsstring) :
  take_while p (drop_while q s) = c :: r → q c = false.
Proof.
  destruct (drop_while q s) as [| a t] eqn:Hd; [done |].
  apply ParserMore.drop_while_head in Hd. simpl.
  destruct (p a); [| done]. by intros [= <- _].
Qed.

(** X6: for any text that does not start with a slash, the arguments
    contain no line terminator and do not start with white space. *)
Theorem getCommandArgs_dot_shape (text : jsstring) :
  startsWith (js "/") text = false →
  forallb (λ c, negb (is_line_terminator c)) (getCommandArgs text) = true
  ∧ (∀ c rest, getCommandArgs text = c :: rest → is_space c = false).
Proof.
  intros Hslash. unfold getCommandArgs. rewrite Hslash.
  unfold dot_match.
  destruct text as [| d rest]; [by split |].
  destruct (decide (d = 46)) as [-> | Hd].
  - destruct (take_while is_word rest) as [| w ws]; [by split |].
    split; [apply take_while_forallb |].
    intros c r. apply take_while_head.
  - assert (Hdot : match d :: rest with
                   | 46 :: rest0 =>
                       match take_while is_word rest0 with
                       | [] => None
                       | command =>
                           Some (command,
                                 take_while (λ c, negb (is_line_terminator c))
                                   (drop_while is_space (drop_while is_word rest0)))
                       end
                   | _ => None
                   end = None).
    { repeat case_match; try done. all: try (exfalso; apply Hd; done). }
    rewrite Hdot. by split.
Qed.

Lemma getCommandArgs_dot_shape_witness :
  forallb (λ c, negb (is_line_terminator c))
    (getCommandArgs (js ".gen   477349|05")) = true
  ∧ (∀ c rest, getCommandArgs (js ".gen   477349|05") = c :: rest →
       is_space c = false).
Proof. apply getCommandArgs_dot_shape. reflexivity. Defined.

Lemma take_while_stop (p : N → bool) (w : jsstring) (c : N) (r : jsstring) :
  forallb p w = true → p c = false →
  take_while p (w ++ c :: r) = w ∧ drop_while p (w ++ c :: r) = c :: r.
Proof.
  intros Hw Hc. induction w as [| a w IH]; simpl.
  - by rewrite Hc.
  - simpl in Hw. apply andb_true_iff in Hw as [Ha Hw]. rewrite Ha.
    destruct (IH Hw) as [-> ->]. done.
Qed.

Lemma take_while_all (p : N → bool) (s : jsstring) :
  forallb p s = true → take_while p s = s.
Proof.
  induction s as [| c s IH]; [done |]. simpl.
  intros [Hc Hs]%andb_true_iff. by rewrite Hc, IH.
Qed.

Lemma word_no_space (w : jsstring) :
  forallb is_word w = true → forallb (λ c, negb (c =? 32)) w = true.
Proof.
  apply ParserMore.forallb_impl. intros c Hc.
  destruct (N.eqb_spec c 32) as [-> | _]; [done | reflexivity].
Qed.

(** X7: with one space between the command and arguments that hold no
    line terminator and do not start with white space, the slash form and
    the dot form of a command extract the same arguments, the text after
    the space. *)
Theorem getCommandArgs_forms_agree (w args : jsstring) :
  w ≠ [] → forallb is_word w = true →
  forallb (λ c, negb (is_line_terminator c)) args = true →
  (∀ c rest, args = c :: rest → is_space c = false) →
  getCommandArgs (47 :: w ++ 32 :: args) = args
  ∧ getCommandArgs (46 :: w ++ 32 :: args) = args.
Proof.
  intros Hne Hw Hlt Hhead. unfold getCommandArgs. split.
  - change (startsWith (js "/") (47 :: w ++ 32 :: args)) with true. cbv iota.
    change (47 :: w ++ 32 :: args) with ((47 :: w) ++ 32 :: args).
    rewrite ParserFacts.split_piece.
    + simpl drop. apply join_split.
    + simpl. by apply word_no_space.
  - change (startsWith (js "/") (46 :: w ++ 32 :: args)) with false. cbv iota.
    unfold dot_match.
    destruct (take_while_stop is_word w 32 args Hw eq_refl) as [-> ->].
    destruct w as [| a w]; [done |].
    change (drop_while is_space (32 :: args)) with (drop_while is_space args).
    assert (Hargs : drop_while is_space args = args).
    { destruct args as [| c rest]; [done |].
      simpl. by rewrite (Hhead c rest eq_refl). }
    rewrite Hargs. by apply take_while_all.
Qed.

Lemma getCommandArgs_forms_agree_witness :
  getCommandArgs (js "/gen 477349|05|27") = js "477349|05|27"
  ∧ getCommandArgs (js ".gen 477349|05|27") = js "477349|05|27".
Proof.
  apply (getCommandArgs_forms_agree (js "gen") (js "477349|05|27"));
    try done.
  by intros c rest [= <- _].
Defined.

End ArgsFacts.

(** ** More on the cooldown and the slash middleware *)

Module GuardMore.
Import JsString Guard.

Local Open Scope Z_scope.

(** X8: once a command of a user has been allowed at a time [t] (not 0),
    the next command of that user, whenever it comes and whatever happened
    to the rest of the state, is allowed exactly when at least 2000 ms have
    passed since [t]. *)
Theorem cooldown_window (userId : Z) (w w2 : World) :
  clock w ≠ 0 →
  fst (isCommandAllowed userId w) = true →
  userStates w2 !! userId = userStates (snd (isCommandAllowed userId w)) !! userId →
  fst (isCommandAllowed userId w2) = true ↔ COOLDOWN_PERIOD ≤ clock w2 - clock w.
Proof.
  intros Hnow Hallowed Hsame.
  assert (Hstamp : userStates w2 !! userId = Some (clock w)).
  { rewrite Hsame. unfold isCommandAllowed in *.
    destruct (_ || _); [| done]. simpl. apply lookup_insert_eq. }
  unfold isCommandAllowed at 1. rewrite Hstamp. simpl.
  destruct (Z.eqb_spec (clock w) 0) as [? | _]; [done |]. simpl.
  destruct (Z.leb_spec COOLDOWN_PERIOD (clock w2 - clock w)); simpl.
  - split; [done | auto].
  - split; [done | lia].
Qed.

Lemma cooldown_window_witness :
  fst (isCommandAllowed 42 world_cooling) = true
  ↔ COOLDOWN_PERIOD ≤ clock world_cooling - 1700000000000.
Proof.
  apply (cooldown_window 42
           {| clock := 1700000000000; userStates := ∅;
              processingCommands := ∅; trace := [] |} world_cooling).
  - done.
  - reflexivity.
  - reflexivity.
Defined.

(** X9: an allowed slash command: the handler chain is called exactly
    once, on a world where the key of the command is in the in-flight set
    and the time of the command is recorded for the user; the removal
    timer of 60 s is armed after it, also when the handler throws, and the
    outcome of the handler is passed on. *)
Theorem middleware_allowed (next : Next) (ctx : Ctx) (w : World)
    (userId : Z) (m : Message) :
  is_slash_command ctx = true →
  message ctx = Some m →
  from_id ctx = Some userId →
  let key := commandKey userId (message_id m) in
  key ∉ processingCommands w →
  fst (isCommandAllowed userId w) = true →
  ∃ w0, middleware next ctx w =
          (emit (SetTimeout 60000 key) (fst (next w0)), snd (next w0))
        ∧ key ∈ processingCommands w0
        ∧ userStates w0 !! userId = Some (clock w)
        ∧ trace w0 = trace w ++ [CallNext].
Proof.
  intros Hslash Hm Hfrom key Hnotin Hallowed. unfold middleware.
  rewrite Hslash, Hfrom, Hm. simpl from_option. fold key.
  rewrite decide_False by exact Hnotin.
  unfold isCommandAllowed in *.
  destruct (_ || _); [| done]. cbn [negb].
  exists (emit CallNext
            (set_processingCommands ({[key]} ∪ processingCommands w)
               (set_userStates (<[userId := clock w]> (userStates w)) w))).
  split.
  - unfold call. by destruct (next _).
  - simpl. split_and!; [set_solver | apply lookup_insert_eq | done].
Qed.

Lemma middleware_allowed_witness :
  ∃ w0, middleware next_ok slash_gen world0 =
          (emit (SetTimeout 60000 (commandKey 42 7)) (fst (next_ok w0)),
           snd (next_ok w0))
        ∧ commandKey 42 7 ∈ processingCommands w0
        ∧ userStates w0 !! 42 = Some (clock world0)
        ∧ trace w0 = trace world0 ++ [CallNext].
Proof.
  apply (middleware_allowed next_ok slash_gen world0 42
           {| text := Some (js "/gen 477349"); message_id := 7 |});
    try reflexivity.
  simpl. apply not_elem_of_empty.
Defined.

(** X10: handlers never touch the in-flight set. Then, after an allowed
    slash command, a second delivery of the same update is dropped without
    reply and without handler call for as long as the timer has not fired,
    and the firing of the timer puts the in-flight set back to what it was
    before the command. *)
Theorem redelivery_dropped (next next' : Next) (ctx : Ctx) (w : World)
    (userId : Z) (m : Message) :
  is_slash_command ctx = true →
  message ctx = Some m →
  from_id ctx = Some userId →
  let key := commandKey userId (message_id m) in
  key ∉ processingCommands w →
  fst (isCommandAllowed userId w) = true →
  (∀ w0, processingCommands (fst (next w0)) = processingCommands w0) →
  let w1 := fst (middleware next ctx w) in
  (∃ line, middleware next' ctx w1 = (emit (ConsoleLog line) w1, Returned))
  ∧ processingCommands (timer_fires key w1) = processingCommands w.
Proof.
  intros Hslash Hm Hfrom key Hnotin Hallowed Hkeep w1.
  assert (Hset : processingCommands w1 = {[key]} ∪ processingCommands w).
  { subst w1. unfold middleware.
    rewrite Hslash, Hfrom, Hm. simpl from_option. fold key.
    rewrite decide_False by exact Hnotin.
    unfold isCommandAllowed in *.
    destruct (_ || _); [| done]. cbn [negb]. unfold call.
    match goal with |- context [next ?x] =>
      pose proof (Hkeep x) as Hx; destruct (next x) as [w' o] end.
    simpl in *. by rewrite Hx. }
  split.
  - unfold middleware at 1.
    rewrite Hslash, Hfrom, Hm. simpl from_option. fold key.
    rewrite decide_True by (rewrite Hset; set_solver). eauto.
  - unfold timer_fires. simpl. rewrite Hset. set_solver.
Qed.

Lemma redelivery_dropped_witness :
  let w1 := fst (middleware next_ok slash_gen world0) in
  (∃ line, middleware next_ok slash_gen w1 = (emit (ConsoleLog line) w1, Returned))
  ∧ processingCommands (timer_fires (commandKey 42 7) w1) =
    processingCommands world0.
Proof.
  apply (redelivery_dropped next_ok next_ok slash_gen world0 42
           {| text := Some (js "/gen 477349"); message_id := 7 |});
    try reflexivity.
  simpl. apply not_elem_of_empty.
Defined.

(** *** The keys of the in-flight set *)

Lemma digit_char_not_underscore (x : N) (s : string) :
  Dispatch.has_char "_" (String (pretty_N_char x) s) = Dispatch.has_char "_" s.
Proof. unfold pretty_N_char. by repeat case_match. Qed.

Lemma pretty_N_go_no_underscore (x : N) (s : string) :
  Dispatch.has_char "_" (pretty_N_go x s) = Dispatch.has_char "_" s.
Proof.
  revert s. induction (N.lt_wf_0 x) as [x _ IH]; intros s.
  assert (x = 0 ∨ 0 < x)%N as [-> | Hpos] by lia.
  - by rewrite pretty_N_go_0.
  - rewrite pretty_N_go_step by done.
    rewrite IH by (by apply N.div_lt). apply digit_char_not_underscore.
Qed.

Lemma pretty_Z_no_underscore (z : Z) : Dispatch.has_char "_" (pretty z) = false.
Proof.
  assert (HN : ∀ n : N, Dispatch.has_char "_" (pretty n) = false).
  { intros n. unfold pretty, pretty_N. case_decide; [done |].
    by rewrite pretty_N_go_no_underscore. }
  destruct z as [| p | p]; [done | apply (HN (Npos p)) |].
  unfold pretty, pretty_Z. simpl. apply (HN (Npos p)).
Qed.

Lemma first_underscore (s1 s2 r1 r2 : string) :
  Dispatch.has_char "_" s1 = false → Dispatch.has_char "_" s2 = false →
  s1 +:+ String "_" r1 = s2 +:+ String "_" r2 → s1 = s2 ∧ r1 = r2.
Proof.
  revert s2. induction s1 as [| a s1 IH]; intros [| b s2] H1 H2 Heq; simpl in *.
  - by injection Heq.
  - injection Heq as <- _. by rewrite decide_True in H2.
  - injection Heq as -> _. by rewrite decide_True in H1.
  - injection Heq as -> Heq.
    apply orb_false_iff in H1 as [_ H1], H2 as [_ H2].
    destruct (IH s2 H1 H2 Heq) as [-> ->]. done.
Qed.

Lemma append_inj_r (s r1 r2 : string) : s +:+ r1 = s +:+ r2 → r1 = r2.
Proof. induction s as [| a s IH]; simpl; [done |]. intros [= H]. auto. Qed.

Lemma append_slash_inj (s1 s2 : string) :
  Dispatch.has_char "_" s1 = false → Dispatch.has_char "_" s2 = false →
  s1 +:+ "_slash" = s2 +:+ "_slash" → s1 = s2.
Proof.
  intros H1 H2 Heq.
  by destruct (first_underscore s1 s2 "slash" "slash" H1 H2 Heq).
Qed.

(** X11: the key of the in-flight set identifies the update: two
    commands have the same key exactly when they come from the same user
    and carry the same message id. *)
Theorem commandKey_inj (userId messageId userId' messageId' : Z) :
  commandKey userId messageId = commandKey userId' messageId'
  ↔ userId = userId' ∧ messageId = messageId'.
Proof.
  split; [| by intros [-> ->]].
  unfold commandKey. intros Heq.
  apply first_underscore in Heq as [Hu Hm];
    [| apply pretty_Z_no_underscore ..].
  apply append_slash_inj in Hm; [| apply pretty_Z_no_underscore ..].
  split; by apply (inj pretty).
Qed.

End GuardMore.

(** ** Dot commands and the two middlewares together *)

Module DispatchFacts.
Import JsString Guard Args Dispatch.

Local Open Scope Z_scope.

Lemma slash_is_not_dot (ctx : Ctx) :
  is_slash_command ctx = true →
  ∃ t, message ctx ≫= text = Some t ∧ startsWith (js ".") t = false.
Proof.
  unfold is_slash_command. destruct (message ctx) as [m |]; [| done].
  cbn [mbind option_bind].
  destruct (text m) as [[| c t] |]; try done.
  change (js "/") with [47%N]. cbn [startsWith].
  intros [Hc _]%andb_true_iff. apply N.eqb_eq in Hc as <-.
  by exists (47%N :: t).
Qed.

Lemma dot_is_not_slash (ctx : Ctx) (t : jsstring) :
  message ctx ≫= text = Some t → startsWith (js ".") t = true →
  is_slash_command ctx = false.
Proof.
  unfold is_slash_command. destruct (message ctx) as [m |]; [| done].
  cbn [mbind option_bind].
  intros ->. destruct t as [| c t]; [done |].
  change (js ".") with [46%N]. cbn [startsWith].
  intros [Hc _]%andb_true_iff. apply N.eqb_eq in Hc as <-. done.
Qed.

(** X12: a dot command of a user in cooldown gets exactly the one
    "please wait" reply: no case of [handleDotCommand] runs, the rest of
    the chain is not called, and neither the in-flight set nor the
    recorded times change. *)
Theorem text_middleware_denied (run : CaseBodies) (next : Next) (ctx : Ctx)
    (w : World) (t : jsstring) (userId : Z) :
  message ctx ≫= text = Some t →
  startsWith (js ".") t = true →
  from_id ctx = Some userId →
  fst (isCommandAllowed userId w) = false →
  ∃ w' line, text_middleware run next ctx w = (w', Returned)
    ∧ trace w' = trace w ++ [ConsoleLog line; Reply please_wait]
    ∧ processingCommands w' = processingCommands w
    ∧ userStates w' = userStates w.
Proof.
  intros Ht Hdot Hfrom Hdenied. unfold text_middleware, text_middleware_try.
  rewrite Ht, Hdot, Hfrom. unfold isCommandAllowed in *.
  destruct (_ || _); [done |]. simpl.
  eexists _, _. split_and!; try reflexivity. simpl. by rewrite <- app_assoc.
Qed.

Lemma text_middleware_denied_witness :
  ∃ w' line, text_middleware run_ok next_ok (dot_update ".gen 477349") world_cooling
             = (w', Returned)
    ∧ trace w' = trace world_cooling ++ [ConsoleLog line; Reply please_wait]
    ∧ processingCommands w' = processingCommands world_cooling
    ∧ userStates w' = userStates world_cooling.
Proof.
  apply (text_middleware_denied run_ok next_ok (dot_update ".gen 477349")
           world_cooling (js ".gen 477349") 42); reflexivity.
Defined.

(** X13: an allowed dot command is handled exactly once. When its name,
    in any letter case, is one of the cases of [handleDotCommand], the body
    of that case runs once with the arguments of the command and the rest
    of the chain is never called; otherwise no case runs and the rest of
    the chain is called once. Errors of either are logged, not thrown. *)
Theorem dot_command_handled_once (run : CaseBodies) (next : Next) (ctx : Ctx)
    (w : World) (t command args : jsstring) (userId : Z) :
  message ctx ≫= text = Some t →
  from_id ctx = Some userId →
  fst (isCommandAllowed userId w) = true →
  dot_match t = Some (command, args) →
  ∃ w0, userStates w0 !! userId = Some (clock w)
    ∧ processingCommands w0 = processingCommands w
    ∧ replies (trace w0) = replies (trace w)
    ∧ (∀ c, find_case dot_cases (toLowerCase command) = Some c →
         text_middleware run next ctx w = swallow (run c args ctx w0))
    ∧ (find_case dot_cases (toLowerCase command) = None →
         text_middleware run next ctx w = swallow (call next w0)).
Proof.
  intros Ht Hfrom Hallowed Hmatch.
  assert (Hdot : startsWith (js ".") t = true).
  { unfold dot_match in Hmatch. destruct t as [| d t]; [done |].
    destruct (decide (d = 46%N)) as [-> | Hd]; [done |].
    exfalso. revert Hmatch. repeat case_match; try done.
    all: intros _; by apply Hd. }
  unfold text_middleware, text_middleware_try, handleDotCommand.
  rewrite Ht, Hdot, Hfrom, Hmatch. unfold isCommandAllowed in *.
  destruct (_ || _); [| done]. cbn [negb].
  eexists. split_and!; last first.
  - intros ->. reflexivity.
  - intros c ->. destruct (run c args ctx _) as [w' []]; reflexivity.
  - simpl. unfold replies. rewrite !omap_app. simpl. by rewrite !app_nil_r.
  - reflexivity.
  - simpl. apply lookup_insert_eq.
Qed.

Lemma dot_command_handled_once_witness :
  ∃ w0, userStates w0 !! 42 = Some (clock world0)
    ∧ processingCommands w0 = processingCommands world0
    ∧ replies (trace w0) = replies (trace world0)
    ∧ (∀ c, find_case dot_cases (toLowerCase (js "GEN")) = Some c →
         text_middleware run_ok next_ok (dot_update ".GEN 477349") world0
         = swallow (run_ok c (js "477349") (dot_update ".GEN 477349") w0))
    ∧ (find_case dot_cases (toLowerCase (js "GEN")) = None →
         text_middleware run_ok next_ok (dot_update ".GEN 477349") world0
         = swallow (call next_ok w0)).
Proof.
  apply (dot_command_handled_once run_ok next_ok (dot_update ".GEN 477349")
           world0 (js ".GEN 477349") (js "GEN") (js "477349") 42);
    reflexivity.
Defined.

(** The commands registered with [registerCommand] that have no case in
    [handleDotCommand] are left to the rest of the chain. *)
Example cedula_and_placa_have_no_case :
  find_case dot_cases (toLowerCase (js "cedula")) = None
  ∧ find_case dot_cases (toLowerCase (js "Placa")) = None
  ∧ find_case dot_cases (toLowerCase (js "GeN")) = Some DotGen.
Proof. by vm_compute. Qed.

(** An update without text passes both middlewares untouched: the rest of
    the chain decides the outcome, and an error thrown there is not caught. *)
Lemma pipeline_without_text (run : CaseBodies) (next : Next) (ctx : Ctx)
    (w : World) :
  message ctx ≫= text = None →
  pipeline run next ctx w = next (emit CallNext w).
Proof.
  intros Ht. unfold pipeline, middleware, on_text, call.
  assert (is_slash_command ctx = false) as ->.
  { unfold is_slash_command. destruct (message ctx) as [m |]; [| done].
    simpl in Ht. by rewrite Ht. }
  by rewrite Ht.
Qed.

Example photo_error_not_caught :
  snd (pipeline run_ok (λ w, (w, Threw)) photo_update world0) = Threw.
Proof. reflexivity. Qed.

(** X14: on a text update, no error of a case body or of the rest of the
    chain leaves the two middlewares. Unless the update is a slash command
    without sender or one answered with the cooldown notice (that reply is
    sent outside any [try]), the pipeline returns normally, whatever the
    case bodies and the rest of the chain do. *)
Theorem pipeline_handler_errors_caught (run : CaseBodies) (next : Next)
    (ctx : Ctx) (w : World) (t : jsstring) :
  message ctx ≫= text = Some t →
  (is_slash_command ctx = true →
   ∃ userId m, from_id ctx = Some userId ∧ message ctx = Some m
     ∧ (commandKey userId (message_id m) ∈ processingCommands w
        ∨ fst (isCommandAllowed userId w) = true)) →
  snd (pipeline run next ctx w) = Returned.
Proof.
  intros Ht Hslash. unfold pipeline, middleware, on_text. rewrite Ht.
  destruct (is_slash_command ctx).
  - destruct (Hslash eq_refl) as (userId & m & -> & -> & Hcase).
    simpl from_option. case_decide as Hin; [done |].
    destruct Hcase as [? | Hallowed]; [done |].
    destruct (isCommandAllowed userId w) as [allowed w1].
    simpl in Hallowed. subst allowed. cbn [negb].
    unfold call, text_middleware.
    destruct (swallow _) as [w' o] eqn:Hs. simpl.
    unfold swallow in Hs. repeat case_match; by simplify_eq.
  - unfold call, text_middleware, swallow. by repeat case_match.
Qed.

Lemma pipeline_handler_errors_caught_witness :
  snd (pipeline run_throws (λ w, (w, Threw)) slash_gen world0) = Returned.
Proof.
  apply (pipeline_handler_errors_caught run_throws (λ w, (w, Threw))
           slash_gen world0 (js "/gen 477349")).
  - reflexivity.
  - intros _. eexists 42%Z, _. split_and!; [reflexivity | reflexivity |].
    right. reflexivity.
Defined.

(** X15: the cooldown is consulted once for each update. An allowed
    slash command passes the text middleware unchecked and reaches the rest
    of the chain, on a world where its time is recorded; a dot command
    passes the slash middleware unchecked. *)
Theorem pipeline_single_check (run : CaseBodies) (next : Next) (ctx : Ctx)
    (w : World) :
  (∀ userId m,
     is_slash_command ctx = true →
     message ctx = Some m →
     from_id ctx = Some userId →
     commandKey userId (message_id m) ∉ processingCommands w →
     fst (isCommandAllowed userId w) = true →
     ∃ w0, pipeline run next ctx w =
             (emit (SetTimeout 60000 (commandKey userId (message_id m)))
                (fst (swallow (next w0))), Returned)
           ∧ userStates w0 !! userId = Some (clock w)
           ∧ trace w0 = trace w ++ [CallNext; CallNext])
  ∧ (∀ t, message ctx ≫= text = Some t → startsWith (js ".") t = true →
       pipeline run next ctx w = text_middleware run next ctx (emit CallNext w)).
Proof.
  split.
  - intros userId m Hslash Hm Hfrom Hnotin Hallowed.
    destruct (slash_is_not_dot ctx Hslash) as (t & Ht & Hdot).
    unfold pipeline, middleware, on_text. rewrite Ht.
    rewrite Hslash, Hfrom, Hm. simpl from_option.
    rewrite decide_False by exact Hnotin.
    unfold isCommandAllowed in *.
    destruct (_ || _); [| done]. cbn [negb].
    unfold call at 1, text_middleware, text_middleware_try.
    rewrite Ht, Hdot. unfold call.
    match goal with |- context [next ?x] => exists x end. split.
    + destruct (swallow (next _)) as [w' o] eqn:Hs.
      assert (o = Returned) as ->.
      { unfold swallow in Hs. repeat case_match; by simplify_eq. }
      reflexivity.
    + simpl. split; [apply lookup_insert_eq | by rewrite <- app_assoc].
  - intros t Ht Hdot. unfold pipeline, middleware, on_text.
    by rewrite Ht, (dot_is_not_slash ctx t Ht Hdot).
Qed.

End DispatchFacts.

(** ** More on the registry lookup *)

Module CedulaMore.
Import JsString Js Cedula Args CedulaCommand.

Local Open Scope Z_scope.

Ltac run_loop :=
  unfold cedula_lookup; cbn [retry_loop]; change (1 + 1) with 2.

Ltac zbools :=
  repeat match goal with
         | H : _ && _ = true |- _ => apply andb_true_iff in H as [? ?]
         | H : _ && _ = false |- _ => apply andb_false_iff in H as [? | ?]
         | H : (_ =? _) = true |- _ => apply Z.eqb_eq in H
         | H : (_ =? _) = false |- _ => apply Z.eqb_neq in H
         | H : (_ <=? _) = true |- _ => apply Z.leb_le in H
         | H : (_ <=? _) = false |- _ => apply Z.leb_gt in H
         | H : (_ <? _) = true |- _ => apply Z.ltb_lt in H
         | H : (_ <? _) = false |- _ => apply Z.ltb_ge in H
         end.

(** X16: when the first request fails (no response), the loop waits
    700 ms and makes one second request, with no backoff after it. The
    answer is the one the second outcome would have got as a first
    outcome. *)
Theorem cedula_failed_request_retried (net : Network) (e : Error) :
  net 1 = Throw e →
  snd (cedula_lookup net) = [Fetch 1; Sleep 700; Fetch 2]
  ∧ fst (cedula_lookup net) = fst (cedula_lookup (λ _, net 2)).
Proof.
  intros H1. run_loop. rewrite H1. cbn -[Z.eqb Z.leb Z.ltb].
  destruct (net 2) as [r2 | e2]; [| done].
  cbn -[Z.eqb Z.leb Z.ltb].
  repeat case_match; simplify_eq; cbn -[Z.eqb Z.leb Z.ltb];
    repeat case_match; simplify_eq; split; try done; zbools; lia.
Qed.

Lemma cedula_failed_request_retried_witness :
  snd (cedula_lookup net_down_then_429) = [Fetch 1; Sleep 700; Fetch 2]
  ∧ fst (cedula_lookup net_down_then_429) = Overloaded.
Proof.
  destruct (cedula_failed_request_retried net_down_then_429 FetchError eq_refl)
    as [Htrace Hanswer].
  split; [exact Htrace |]. rewrite Hanswer. reflexivity.
Defined.

Lemma cedula_first_fetch (net : Network) :
  (1 ≤ fetches (snd (cedula_lookup net)))%nat.
Proof.
  run_loop.
  destruct (net 1) as [r1 | e1]; [| destruct (net 2) as [r2 | e2]];
    cbn -[Z.leb Z.ltb Z.eqb]; repeat case_match; simplify_eq; cbv; lia.
Qed.

(** X17: whatever the registry does, one lookup makes a first request,
    at most two requests in all, and spends at most 1200 ms in backoff. *)
Theorem cedula_bounds (net : Network) :
  (∃ rest, snd (cedula_lookup net) = Fetch 1 :: rest)
  ∧ (1 ≤ fetches (snd (cedula_lookup net)) ≤ 2)%nat
  ∧ 0 ≤ backoff (snd (cedula_lookup net)) ≤ 1200.
Proof.
  run_loop.
  destruct (net 1) as [r1 | e1]; [| destruct (net 2) as [r2 | e2]];
    cbn -[Z.leb Z.ltb Z.eqb]; repeat case_match; simplify_eq;
    (split_and!; [by eexists | cbv; try lia; try done .. ]).
Qed.

(** X18: the registry is contacted exactly when the argument of the
    command, trimmed, is made of ten digits; any other argument gets the
    usage notice and no request. *)
Theorem cedula_contacted_iff_valid (text : jsstring) (net : Network) :
  (valid_cedula (trim (getCommandArgs text)) = false →
     cedula_command text net = (Usage, []))
  ∧ (valid_cedula (trim (getCommandArgs text)) = true →
     cedula_command text net =
       (Answered (fst (cedula_lookup net)), snd (cedula_lookup net))
     ∧ (1 ≤ fetches (snd (cedula_command text net)))%nat).
Proof.
  unfold cedula_command.
  destruct (trim (getCommandArgs text)) as [| c s] eqn:Hargs.
  - split; [done |]. discriminate.
  - split; intros ->; [done |]. cbn [negb].
    destruct (cedula_lookup net) as [a tr] eqn:Hl. split; [done |]. simpl.
    pose proof (cedula_first_fetch net) as Hone.
    by rewrite Hl in Hone.
Qed.

End CedulaMore.

(** ** Favourites *)

Module FavoritesFacts.
Import JsString Parser Favorites.

Lemma load_saved (userId u : Z) (data : UserData) (store : gmap Z UserData) :
  loadUserData u (saveUserData userId data store) =
  if decide (userId = u) then data else loadUserData u store.
Proof.
  unfold loadUserData, saveUserData. rewrite lookup_insert.
  by case_decide.
Qed.

Lemma existsb_same_bin (bin : field) (favs : list Favorite) :
  existsb (same_bin bin) favs = false → bin ∉ fav_bin <$> favs.
Proof.
  induction favs as [| fav favs IH]; simpl; [intros _; apply not_elem_of_nil |].
  intros [Hfav Hrest]%orb_false_iff. unfold same_bin in Hfav.
  apply bool_decide_eq_false in Hfav.
  intros [Heq | Hin]%elem_of_cons; [done | by apply IH].
Qed.

Lemma no_duplicates_update (userId : Z) (favs : list Favorite)
    (store : gmap Z UserData) :
  no_duplicates store →
  NoDup (fav_bin <$> favs) →
  no_duplicates
    (saveUserData userId (set_favorites favs (loadUserData userId store)) store).
Proof.
  intros Hstore Hfavs u. rewrite load_saved. case_decide; [done | apply Hstore].
Qed.

Lemma NoDup_delete_bins (i : nat) (favs : list Favorite) :
  NoDup (fav_bin <$> favs) → NoDup (fav_bin <$> delete i favs).
Proof.
  rewrite list_fmap_delete. intros H.
  eapply sublist_NoDup; [exact H | apply sublist_delete].
Qed.

Section Handlers.

Variable isValidBin : field → bool.

(** X19: no bin is ever saved twice: if no user has a duplicate among
    their favourites, none has after [agregarbin] or [eliminarbin],
    whatever the arguments. *)
Theorem favorites_no_duplicates (args : jsstring) (userId : Z)
    (store : gmap Z UserData) :
  no_duplicates store →
  no_duplicates (snd (agregarbin isValidBin args userId store))
  ∧ no_duplicates (snd (eliminarbin args userId store)).
Proof.
  intros Hstore. split.
  - unfold agregarbin. destruct args as [| c args]; [done |].
    destruct (isValidBin _); cbn [negb]; [| done].
    destruct (existsb _ _) eqn:Hnew; [done |]. cbn [snd].
    apply no_duplicates_update; [done |].
    rewrite fmap_app. apply NoDup_app. split_and!.
    + apply Hstore.
    + intros b Hb [-> | []%elem_of_nil]%elem_of_cons.
      by apply existsb_same_bin in Hnew.
    + apply NoDup_singleton.
  - unfold eliminarbin. destruct args as [| c args]; [done |].
    destruct (forallb is_digit (c :: args)).
    + destruct (_ || _); [done |]. cbn [snd].
      apply no_duplicates_update; [done |]. apply NoDup_delete_bins, Hstore.
    + destruct (findIndex _ _); [| done]. cbn [snd].
      apply no_duplicates_update; [done |]. apply NoDup_delete_bins, Hstore.
Qed.

(** X20: both commands change nothing but the favourites of the user who
    sends them: the records of all other users, and the history and the
    mailbox of that user, stay as they were. *)
Theorem favorites_isolation (args : jsstring) (userId : Z)
    (store : gmap Z UserData) :
  only_favorites_changed userId store
    (snd (agregarbin isValidBin args userId store))
  ∧ only_favorites_changed userId store
      (snd (eliminarbin args userId store)).
Proof.
  assert (Hsave : ∀ favs,
    only_favorites_changed userId store
      (saveUserData userId
         (set_favorites favs (loadUserData userId store)) store)).
  { intros favs. unfold only_favorites_changed. split_and!.
    - intros u Hu. unfold saveUserData. by rewrite lookup_insert_ne.
    - rewrite load_saved. by rewrite decide_True.
    - rewrite load_saved. by rewrite decide_True. }
  assert (Hsame : only_favorites_changed userId store store) by done.
  split.
  - unfold agregarbin. destruct args as [| c args]; [done |].
    destruct (isValidBin _); cbn [negb]; [| done].
    destruct (existsb _ _); [done |]. apply Hsave.
  - unfold eliminarbin. destruct args as [| c args]; [done |].
    destruct (forallb is_digit (c :: args)).
    + destruct (_ || _); [done |]. apply Hsave.
    + destruct (findIndex _ _); [| done]. apply Hsave.
Qed.

Lemma findIndex_new (bin : field) (favs : list Favorite) (fav : Favorite) :
  existsb (same_bin bin) favs = false →
  fav_bin fav = bin →
  findIndex bin (favs ++ [fav]) = Some (length favs).
Proof.
  intros Hnew Hfav. induction favs as [| f favs IH]; simpl.
  - unfold same_bin. by rewrite bool_decide_eq_true_2.
  - simpl in Hnew. apply orb_false_iff in Hnew as [-> Hnew].
    by rewrite IH.
Qed.

(** X21: a bin that was just added is removed again by [eliminarbin]
    with any argument that is not a plain number and parses to the same
    bin, and the record of the user is then what it was before the bin was
    added. *)
Theorem add_then_remove (args args' : jsstring) (userId : Z)
    (store store1 : gmap Z UserData) :
  agregarbin isValidBin args userId store = (Added, store1) →
  args' ≠ [] →
  forallb is_digit args' = false →
  bin (parseGenInput args') = bin (parseGenInput args) →
  ∃ store2,
    eliminarbin args' userId store1 = (Removed (bin (parseGenInput args)), store2)
    ∧ loadUserData userId store2 = loadUserData userId store
    ∧ (∀ u, u ≠ userId → store2 !! u = store !! u).
Proof.
  intros Hadd Hne Hdigits Hbin.
  unfold agregarbin in Hadd. destruct args as [| c args]; [done |].
  destruct (isValidBin _); cbn [negb] in Hadd; [| done].
  destruct (existsb _ _) eqn:Hnew; [done |].
  injection Hadd as <-.
  unfold eliminarbin. destruct args' as [| c' args']; [done |].
  rewrite Hdigits, Hbin, load_saved, decide_True by done.
  cbn [favorites set_favorites].
  rewrite (findIndex_new _ _ _ Hnew) by reflexivity.
  rewrite list_lookup_middle by done. cbn [mbind option_bind fav_bin].
  rewrite delete_middle, app_nil_r.
  eexists. split_and!; [reflexivity | |].
  - rewrite load_saved, decide_True by done.
    by destruct (loadUserData userId store).
  - intros u Hu. unfold saveUserData. by rewrite !lookup_insert_ne.
Qed.

(** X22: an argument made of digits only is always taken as a position,
    counted from one, never as a bin: when its value is zero or exceeds the
    number of favourites nothing is removed, even if the argument is one of
    the saved bins; otherwise the favourite at that position is removed. *)
Theorem eliminarbin_by_position (args : jsstring) (userId : Z)
    (store : gmap Z UserData) :
  args ≠ [] →
  forallb is_digit args = true →
  let favs := favorites (loadUserData userId store) in
  let n := parseInt args in
  ((n ≤ 0 ∨ Z.of_nat (length favs) < n)%Z →
     eliminarbin args userId store = (InvalidIndex, store))
  ∧ ((1 ≤ n ≤ Z.of_nat (length favs))%Z →
     eliminarbin args userId store =
       (Removed (favs !! Z.to_nat (n - 1) ≫= fav_bin),
        saveUserData userId
          (set_favorites (delete (Z.to_nat (n - 1)) favs)
             (loadUserData userId store)) store)).
Proof.
  intros Hne Hdigits favs n. unfold eliminarbin.
  destruct args as [| c args]; [done |]. rewrite Hdigits.
  fold favs. fold n. split; intros Hn.
  - destruct (Z.ltb_spec (n - 1) 0), (Z.leb_spec (Z.of_nat (length favs)) (n - 1));
      try done; lia.
  - destruct (Z.ltb_spec (n - 1) 0), (Z.leb_spec (Z.of_nat (length favs)) (n - 1));
      try done; lia.
Qed.



End Handlers.

Lemma favorites_no_duplicates_witness :
  no_duplicates (snd (agregarbin valid_bin_field (js "477349xx|05") 42 sample_store))
  ∧ no_duplicates (snd (eliminarbin (js "1") 42 sample_store)).
Proof.
  assert (Hok : no_duplicates sample_store).
  { intros u. unfold loadUserData, sample_store.
    rewrite lookup_singleton. case_decide; simpl.
    - apply NoDup_singleton.
    - apply NoDup_nil_2. }
  split.
  - apply (favorites_no_duplicates valid_bin_field (js "477349xx|05") 42
             sample_store Hok).
  - apply (favorites_no_duplicates valid_bin_field (js "1") 42
             sample_store Hok).
Defined.

Lemma add_then_remove_witness :
  ∃ store1 store2,
    agregarbin valid_bin_field (js "477349|05|2027") 42 sample_store = (Added, store1)
    ∧ eliminarbin (js "477349xxxx") 42 store1 = (Removed (Some (js "477349")), store2)
    ∧ loadUserData 42 store2 = loadUserData 42 sample_store.
Proof.
  eexists.
  destruct (add_then_remove valid_bin_field (js "477349|05|2027")
              (js "477349xxxx") 42 sample_store _ eq_refl)
    as (store2 & Hdel & Hload & _); try done.
  exists store2. split_and!; [reflexivity | exact Hdel | exact Hload].
Defined.

(** A saved bin given as a plain number is a position, and here an
    invalid one. *)
Lemma eliminarbin_by_position_witness :
  eliminarbin (js "431940") 42 sample_store = (InvalidIndex, sample_store).
Proof.
  apply (eliminarbin_by_position (js "431940") 42 sample_store); try done.
  right. vm_compute. reflexivity.
Defined.

End FavoritesFacts.

(** ** The gen handlers *)

Module GenHandlerFacts.
Import JsString Js Resolver Favorites Generator GenHandler.

Lemma slice_last2_cons (c : N) (s : jsstring) : slice_last2 (c :: s) ≠ [].
Proof.
  unfold slice_last2. intros H.
  apply (f_equal length) in H. rewrite length_drop in H. simpl in H. lia.
Qed.

Lemma overridden_fields (fixedMonth fixedYear fixedCVV : Parser.field)
    (card : Card) :
  let card' := overridden fixedMonth fixedYear fixedCVV card in
  month card' = (if Parser.truthy fixedMonth then Parser.str fixedMonth
                 else month card)
  ∧ year card' = (if Parser.truthy fixedYear
                  then slice_last2 (Parser.str fixedYear) else year card)
  ∧ cvv card' = (if Parser.truthy fixedCVV then Parser.str fixedCVV
                 else cvv card).
Proof.
  unfold overridden.
  destruct fixedYear as [[| c s] |]; cbn [Parser.truthy];
    destruct (Parser.truthy fixedMonth), (Parser.truthy fixedCVV);
    cbn [month year cvv]; split_and!; try reflexivity.
  all: unfold Parser.str; cbn [default from_option id];
    pose proof (slice_last2_cons c s); by destruct (slice_last2 (c :: s)).
Qed.

Section Handler.

Variables random_month random_year random_cvv : Rand jsstring.

(** X23: every card of a batch carries the overrides: the fixed month
    and the fixed cvv as given, and of a fixed year its last two
    characters. *)
Theorem genCards_overrides (bin : jsstring)
    (fixedMonth fixedYear fixedCVV : Parser.field) (g : Rng) :
  Forall (λ card,
            (Parser.truthy fixedMonth = true →
               month card = Parser.str fixedMonth)
            ∧ (Parser.truthy fixedYear = true →
               year card = slice_last2 (Parser.str fixedYear))
            ∧ (Parser.truthy fixedCVV = true →
               cvv card = Parser.str fixedCVV))
    (fst (genCards random_month random_year random_cvv bin
            fixedMonth fixedYear fixedCVV g)).
Proof.
  unfold genCards. eapply GeneratorFacts.repeat_rand_spec. intros g'.
  unfold rand_bind, rand_ret.
  destruct (generateCard _ _ _ bin g') as [card g1]. cbn [fst].
  destruct (overridden_fields fixedMonth fixedYear fixedCVV card)
    as (Hm & Hy & Hc).
  split_and!; intros Ht; rewrite Ht in *; done.
Qed.

Lemma gen_command_rejection (input : jsstring) (g : Rng) (r : Rejection) :
  fst (gen_command random_month random_year random_cvv input g) = inl r →
  snd (gen_command random_month random_year random_cvv input g) = g.
Proof.
  unfold gen_command. destruct input as [| c input]; [done |].
  generalize (Parser.parseGenInput (c :: input)). intros parsed.
  repeat match goal with
         | |- context [if ?b then _ else _] => destruct b; [done |]
         end.
  unfold rand_bind, rand_ret. by destruct (genCards _ _ _ _ _ _ _ g).
Qed.

Lemma gen_command_ten (input : jsstring) (g : Rng) (cards : list Card) :
  fst (gen_command random_month random_year random_cvv input g) = inr cards →
  length cards = 10%nat.
Proof.
  unfold gen_command. destruct input as [| c input]; [done |].
  generalize (Parser.parseGenInput (c :: input)). intros parsed.
  repeat match goal with
         | |- context [if ?b then _ else _] => destruct b; [done |]
         end.
  unfold rand_bind, rand_ret.
  destruct (genCards _ _ _ _ _ _ _ g) as [cs g'] eqn:Hcs. cbn [fst].
  intros [= <-]. unfold genCards in Hcs.
  match type of Hcs with repeat_rand _ ?m _ = _ =>
    destruct (GeneratorFacts.repeat_rand_spec (λ _, True) m 10 g) as [Hlen _];
      [done |]
  end.
  by rewrite Hcs in Hlen.
Qed.

(** X24: the gen command and the history. A rejected command leaves
    the records and the random source untouched; an accepted one makes ten
    cards and puts one entry, with the parsed bin and the count 10, at the
    head of the history of the user, leaving the favourites, the older
    entries and the other users as they were. *)
Theorem gen_dot_history (args : jsstring) (userId : Z) (timestamp : jsstring)
    (store : gmap Z UserData) (g : Rng) :
  match gen_dot random_month random_year random_cvv args userId timestamp store g with
  | ((inl _, store'), g') => store' = store ∧ g' = g
  | ((inr cards, store'), _) =>
      length cards = 10%nat
      ∧ history (loadUserData userId store') =
        HistGen (Parser.bin (Parser.parseGenInput args)) 10 timestamp
        :: history (loadUserData userId store)
      ∧ favorites (loadUserData userId store') =
        favorites (loadUserData userId store)
      ∧ (∀ u, u ≠ userId → store' !! u = store !! u)
  end.
Proof.
  unfold gen_dot, rand_bind.
  pose proof (gen_command_rejection args g) as Hrej.
  pose proof (gen_command_ten args g) as Hten.
  destruct (gen_command _ _ _ args g) as [[rej | cards] g']; simpl in *.
  - split; [done | by eapply Hrej].
  - rewrite (Hten cards eq_refl). split_and!; try done.
    + by rewrite FavoritesFacts.load_saved, decide_True.
    + by rewrite FavoritesFacts.load_saved, decide_True.
    + intros u Hu. unfold saveUserData. by rewrite lookup_insert_ne.
Qed.

(** X25: a year of the form 20xx in the month slot never gives cards:
    the month/year swap does not repair it, and the command is rejected
    (for its bin or for its month) before any random draw. *)
Theorem gen_command_reversed_order (input m : jsstring) (g : Rng) :
  Parser.tokens input !! 1%nat = Some m →
  Parser.is_year_20xx m = true →
  gen_command random_month random_year random_cvv input g = (inl InvalidBin, g)
  ∨ gen_command random_month random_year random_cvv input g = (inl InvalidMonth, g).
Proof.
  intros Hm Hyear.
  destruct (ParserMore.parse_year_in_month_slot input m Hm Hyear)
    as [Htruthy Hlen].
  unfold gen_command. destruct input as [| c input]; [done |].
  destruct (negb _); [by left |]. right.
  rewrite Htruthy.
  assert (Hinvalid : valid_month
            (Parser.str (Parser.month (Parser.parseGenInput (c :: input)))) = false).
  { destruct (Parser.str _) as [| a [| b [| ? ?]]]; try done. }
  by rewrite Hinvalid.
Qed.

End Handler.

Lemma gen_command_reversed_order_witness :
  gen_command sample_month sample_year sample_cvv (js "477349|2025|10") sample_draws
  = (inl InvalidMonth, sample_draws).
Proof.
  destruct (gen_command_reversed_order sample_month sample_year sample_cvv
              (js "477349|2025|10") (js "2025") sample_draws eq_refl eq_refl)
    as [H | H]; [| exact H].
  exfalso. revert H. vm_compute. discriminate.
Defined.





Example nao_disponivel_units :
  nao_disponivel =
  VString [78; 227; 111; 32; 100; 105; 115; 112; 111; 110; 237; 118; 101; 108]%N.
Proof. reflexivity. Qed.


End GenHandlerFacts.
